(** * create_template.py: the Harkness Helper workbook template

    A shallow embedding of [create_template.py] and of the part of the
    openpyxl API the script calls, followed by the properties the
    specification states about the generated workbook.

    Layout:
    - [Py]: Python values, strings (UTF-8 bytes, lengths in code points),
      exceptions, and the state-and-exception monad the script runs in;
    - [openpyxl]: the library objects the script touches (styles, cells,
      worksheets, the workbook) with the checks the library performs on
      the arguments it is given;
    - [create_template]: the script, statement by statement;
    - the theorems. *)

From Stdlib Require Import ZArith NArith Ascii String List Lia.
From stdpp Require Import base option list gmap strings.

Local Open Scope Z_scope.

(* ===================================================================== *)
(** * Python values, strings and control *)
(* ===================================================================== *)

Module Py.

(** The double quote U+0022 and the line feed U+000A. *)
Definition dq : string := String (ascii_of_nat 34) EmptyString.
Definition nl : string := String (ascii_of_nat 10) EmptyString.

(** [''.join(parts)] and [sep.join(parts)]. *)
Definition cat (parts : list string) : string := String.concat EmptyString parts.
Definition join (sep : string) (parts : list string) : string := String.concat sep parts.

(** A quoted fragment ["..."] inside a Python literal. *)
Definition quoted (s : string) : string := cat [dq; s; dq].

(** A triple-quoted literal, given line by line. *)
Definition text (lines : list string) : string := join nl lines.

(** Python strings are sequences of code points; here they are stored as
    their UTF-8 bytes.  A byte [10xxxxxx] continues the code point begun
    before it. *)
Definition is_continuation (c : ascii) : bool :=
  let n := N_of_ascii c in ((128 <=? n) && (n <? 192))%N.

(** [len(s)]. *)
Fixpoint len (s : string) : Z :=
  match s with
  | EmptyString => 0
  | String c s' => (if is_continuation c then 0 else 1) + len s'
  end.

(** [s[:n]] for [n >= 0]: the first [n] code points. *)
Fixpoint slice_to (n : N) (s : string) : string :=
  match s with
  | EmptyString => EmptyString
  | String c s' =>
      if is_continuation c then String c (slice_to n s')
      else if (n =? 0)%N then EmptyString
      else String c (slice_to (N.pred n) s')
  end.

Definition ord (c : ascii) : Z := Z.of_N (N_of_ascii c).
Definition chr (z : Z) : ascii := ascii_of_N (Z.to_N z).

Definition is_digit (c : ascii) : bool := (48 <=? ord c) && (ord c <=? 57).
Definition is_upper (c : ascii) : bool := (65 <=? ord c) && (ord c <=? 90).
Definition is_lower (c : ascii) : bool := (97 <=? ord c) && (ord c <=? 122).
Definition is_alpha (c : ascii) : bool := is_upper c || is_lower c.
Definition is_hex (c : ascii) : bool :=
  is_digit c || ((65 <=? ord c) && (ord c <=? 70)) || ((97 <=? ord c) && (ord c <=? 102)).

Definition chars (s : string) : list ascii := list_ascii_of_string s.

Definition lower_char (c : ascii) : ascii := if is_upper c then chr (ord c + 32) else c.
Definition upper_char (c : ascii) : ascii := if is_lower c then chr (ord c - 32) else c.

(** A string of ASCII characters only: every byte is below 128. *)
Definition is_ascii (s : string) : bool := forallb (λ c, ord c <? 128) (chars s).

(** [s.lower()] and [s.upper()] for a string of ASCII characters: the
    letters A to Z and a to z are mapped, every other byte is kept.  On a
    string with a character outside ASCII these are not the language's
    functions (which also map accented and other cased letters), so
    whatever is stated through them takes [is_ascii] of the strings
    involved as a premise, or is stated of the ASCII strings of the
    script. *)
Fixpoint lower (s : string) : string :=
  match s with
  | EmptyString => EmptyString
  | String c s' => String (lower_char c) (lower s')
  end.

Fixpoint upper (s : string) : string :=
  match s with
  | EmptyString => EmptyString
  | String c s' => String (upper_char c) (upper s')
  end.

(** [s.startswith(p)]. *)
Definition startswith (p s : string) : bool := String.prefix p s.

(** [tok in s]. *)
Fixpoint contains (tok s : string) : bool :=
  String.prefix tok s ||
  match s with
  | EmptyString => false
  | String _ s' => contains tok s'
  end.

(** [any(p(c) for c in s)]. *)
Definition any_char (p : ascii -> bool) (s : string) : bool := existsb p (chars s).
Definition all_chars (p : ascii -> bool) (s : string) : bool := forallb p (chars s).

(** [str(n)] for an integer. *)
Definition digit_char (d : Z) : ascii := chr (48 + d).

Fixpoint str_pos_loop (fuel : nat) (n : Z) (acc : string) : string :=
  match fuel with
  | O => acc
  | S fuel' =>
      let acc' := String (digit_char (n mod 10)) acc in
      if n / 10 =? 0 then acc' else str_pos_loop fuel' (n / 10) acc'
  end.

Definition str_int (n : Z) : string :=
  if n <? 0 then String "-"%char (str_pos_loop (Z.to_nat (Z.log2 (- n)) + 1) (- n) EmptyString)
  else str_pos_loop (Z.to_nat (Z.log2 n) + 1) n EmptyString.

(** The values the script stores in cells.  Every literal in the script
    is a [str]; the other constructors are the cell values the library
    would type differently. *)
Inductive value : Type :=
| PyNone
| PyStr (s : string)
| PyInt (n : Z)
| PyFloat (mantissa exponent : Z)
| PyBool (b : bool).

#[global] Instance value_eq_dec : EqDecision value.
Proof. solve_decision. Defined.

(** Exceptions the modelled calls can raise. *)
Inductive exn : Type :=
| ValueError (msg : string)
| TypeError (msg : string)
| KeyError (key : string)
| AttributeError (msg : string)
| NameError (name : string)
| IllegalCharacterError (msg : string)
| ModuleNotFoundError (msg : string)
| OSError (msg : string).

(** The outcome of an expression: a value or a raised exception. *)
Inductive result (A : Type) : Type :=
| Ok (a : A)
| Raise (e : exn).
Arguments Ok {A} a.
Arguments Raise {A} e.

#[global] Instance exn_eq_dec : EqDecision exn.
Proof. solve_decision. Defined.
#[global] Instance result_eq_dec {A} `{EqDecision A} : EqDecision (result A).
Proof. solve_decision. Defined.

#[global] Instance result_ret : MRet result := λ A a, Ok a.
#[global] Instance result_bind : MBind result :=
  λ A B f r, match r with Ok a => f a | Raise e => Raise e end.

(** Statements over a mutable object of type [S]: the object is threaded
    through; an exception abandons the rest of the statements and leaves
    the object as it was when the exception was raised. *)
Definition M (S A : Type) : Type := S → result A * S.

#[global] Instance M_ret {S} : MRet (M S) := λ A a s, (Ok a, s).
#[global] Instance M_bind {S} : MBind (M S) :=
  λ A B f m s, match m s with
               | (Ok a, s') => f a s'
               | (Raise e, s') => (Raise e, s')
               end.

Definition raise {S A} (e : exn) : M S A := λ s, (Raise e, s).
Definition get {S} : M S S := λ s, (Ok s, s).
Definition put {S} (s : S) : M S unit := λ _, (Ok tt, s).
Definition modify {S} (f : S → S) : M S unit := λ s, (Ok tt, f s).

(** An expression evaluated inside a statement. *)
Definition lift {S A} (r : result A) : M S A := λ s, (r, s).

(** [for x in xs: body(x)]. *)
Fixpoint for_each {S A} (xs : list A) (body : A → M S unit) : M S unit :=
  match xs with
  | [] => mret tt
  | x :: xs' => _ ← body x; for_each xs' body
  end.

(** [range(a, b)] and [enumerate(xs, start)]. *)
Definition range (a b : Z) : list Z := seqZ a (b - a).

Fixpoint enumerate {A} (xs : list A) (start : Z) : list (Z * A) :=
  match xs with
  | [] => []
  | x :: xs' => (start, x) :: enumerate xs' (start + 1)
  end.

End Py.

Import Py.

(* ===================================================================== *)
(** * The openpyxl objects the script uses *)
(* ===================================================================== *)

Module openpyxl.

(** ** openpyxl.utils *)

(** [int(s)] on a string of decimal digits, as [coordinate_to_tuple] and
    [avoid_duplicate_name] call it. *)
Definition digits_value (s : string) : Z :=
  fold_left (λ acc c, 10 * acc + (ord c - 48)) (chars s) 0.

Definition isdigit (s : string) : bool :=
  all_chars is_digit s && negb (String.eqb s EmptyString).

Definition int_of_digits (s : string) : result Z :=
  if isdigit s then Ok (digits_value s)
  else Raise (ValueError "invalid literal for int() with base 10").

(** The [while col_idx > 0] loop of [get_column_letter]: letters are
    appended least significant first. *)
Fixpoint _get_column_letter_loop (fuel : nat) (col_idx : Z) (letters : list ascii)
  : list ascii :=
  match fuel with
  | O => letters
  | S fuel' =>
      if 0 <? col_idx then
        let q := col_idx / 26 in
        let remainder := col_idx mod 26 in
        if remainder =? 0
        then _get_column_letter_loop fuel' (q - 1) (letters ++ [chr (26 + 64)])
        else _get_column_letter_loop fuel' q (letters ++ [chr (remainder + 64)])
      else letters
  end.

(** [get_column_letter(col_idx)]: 3 -> 'C'; indices outside A..ZZZ are
    refused. *)
Definition get_column_letter (col_idx : Z) : result string :=
  if (1 <=? col_idx) && (col_idx <=? 18278)
  then Ok (string_of_list_ascii
             (rev (_get_column_letter_loop (S (Z.to_nat (Z.log2 col_idx))) col_idx [])))
  else Raise (ValueError "Invalid column index").

(** [_COL_STRING_CACHE[col]]: the index of a column name of one to three
    capital letters. *)
Definition _COL_STRING_CACHE (col : string) : result Z :=
  if all_chars is_upper col && (1 <=? Z.of_nat (String.length col))
     && (Z.of_nat (String.length col) <=? 3)
  then Ok (fold_left (λ acc c, 26 * acc + (ord c - 64)) (chars col) 0)
  else Raise (KeyError col).

Fixpoint split_at_digit (s : string) : string * string :=
  match s with
  | EmptyString => (EmptyString, EmptyString)
  | String c s' =>
      if is_digit c then (EmptyString, s)
      else let '(col, row) := split_at_digit s' in (String c col, row)
  end.

(** [coordinate_to_tuple("A2") == (2, 1)]: the coordinate is cut at its
    first digit. *)
Definition coordinate_to_tuple (coordinate : string) : result (Z * Z) :=
  let '(col, row) := split_at_digit coordinate in
  r ← int_of_digits row;
  c ← _COL_STRING_CACHE col;
  Ok (r, c).

(** ** openpyxl.styles *)

(** A colour: an aRGB hex string, or an index into the theme. *)
Inductive Color : Type :=
| RGB (rgb : string)
| Theme (theme : Z).

(** The [RGB] descriptor: six or eight hex digits; six are completed with
    a zero alpha channel. *)
Definition mk_Color (rgb : string) : result Color :=
  if all_chars is_hex rgb
     && ((String.length rgb =? 8)%nat || (String.length rgb =? 6)%nat)
  then Ok (RGB (if (String.length rgb =? 6)%nat then cat ["00"; rgb] else rgb))
  else Raise (ValueError "Colors must be aRGB hex values").

(** A [NoneSet] descriptor: [None] or one of the listed names. *)
Definition NoneSet (values : list string) (v : option string) : result (option string) :=
  match v with
  | None => Ok None
  | Some s => if bool_decide (s ∈ values) then Ok (Some s)
              else Raise (ValueError "Value must be one of the allowed names")
  end.

Record Font : Type := mkFont {
  name : option string;
  sz : option Z;
  b : bool;
  color : option Color
}.

(** The font of a cell that was given none. *)
Definition DEFAULT_FONT : Font :=
  {| name := Some "Calibri"; sz := Some 11; b := false; color := Some (Theme 1) |}.

(** An optional colour argument: [None], or an aRGB hex string. *)
Definition mk_Color_opt (rgb : option string) : result (option Color) :=
  match rgb with
  | None => Ok None
  | Some s => c ← mk_Color s; Ok (Some c)
  end.

(** [Font(name=.., size=.., bold=.., color=..)]; a missing [bold] is
    [False]. *)
Definition new_Font (name : option string) (size : option Z) (bold : option bool)
    (color : option string) : result Font :=
  c ← mk_Color_opt color;
  Ok {| name := name; sz := size; b := default false bold; color := c |}.

Definition fills : list string :=
  ["solid"; "darkDown"; "darkGray"; "darkGrid"; "darkHorizontal"; "darkTrellis";
   "darkUp"; "darkVertical"; "gray0625"; "gray125"; "lightDown"; "lightGray";
   "lightGrid"; "lightHorizontal"; "lightTrellis"; "lightUp"; "lightVertical";
   "mediumGray"].

Record PatternFill : Type := mkPatternFill {
  patternType : option string;
  fgColor : option Color;
  bgColor : option Color
}.

(** [PatternFill()], the fill of a cell that was given none: no pattern,
    and both colours the default [Color()], which is [00000000]. *)
Definition DEFAULT_EMPTY_FILL : PatternFill :=
  {| patternType := None; fgColor := Some (RGB "00000000");
     bgColor := Some (RGB "00000000") |}.

(** [PatternFill(start_color=.., end_color=.., fill_type=..)]. *)
Definition new_PatternFill (start_color end_color fill_type : string)
  : result PatternFill :=
  t ← NoneSet fills (Some fill_type);
  fg ← mk_Color start_color;
  bg ← mk_Color end_color;
  Ok {| patternType := t; fgColor := Some fg; bgColor := Some bg |}.

Definition horizontal_alignments : list string :=
  ["general"; "left"; "center"; "right"; "fill"; "justify"; "centerContinuous";
   "distributed"].
Definition vertical_aligments : list string :=
  ["top"; "center"; "bottom"; "justify"; "distributed"].

Record Alignment : Type := mkAlignment {
  horizontal : option string;
  vertical : option string;
  wrap_text : option bool
}.

(** [Alignment()], the alignment of a cell that was given none. *)
Definition DEFAULT_ALIGNMENT : Alignment :=
  {| horizontal := None; vertical := None; wrap_text := None |}.

(** [Alignment(horizontal=.., vertical=.., wrap_text=..)]. *)
Definition new_Alignment (horizontal vertical : option string) (wrap_text : option bool)
  : result Alignment :=
  h ← NoneSet horizontal_alignments horizontal;
  v ← NoneSet vertical_aligments vertical;
  Ok {| horizontal := h; vertical := v; wrap_text := wrap_text |}.

Definition side_styles : list string :=
  ["dashDot"; "dashDotDot"; "dashed"; "dotted"; "double"; "hair"; "medium";
   "mediumDashDot"; "mediumDashDotDot"; "mediumDashed"; "slantDashDot"; "thick";
   "thin"].

Record Side : Type := mkSide {
  side_style : option string;
  side_color : option Color
}.

Definition EMPTY_SIDE : Side := {| side_style := None; side_color := None |}.

(** [Side(style=.., color=..)]. *)
Definition new_Side (style color : string) : result Side :=
  s ← NoneSet side_styles (Some style);
  c ← mk_Color color;
  Ok {| side_style := s; side_color := Some c |}.

Record Border : Type := mkBorder {
  left : Side;
  right : Side;
  top : Side;
  bottom : Side
}.

(** [Border()], the border of a cell that was given none. *)
Definition DEFAULT_BORDER : Border :=
  {| left := EMPTY_SIDE; right := EMPTY_SIDE; top := EMPTY_SIDE; bottom := EMPTY_SIDE |}.

#[global] Instance Color_eq_dec : EqDecision Color.
Proof. solve_decision. Defined.
#[global] Instance Font_eq_dec : EqDecision Font.
Proof. solve_decision. Defined.
#[global] Instance PatternFill_eq_dec : EqDecision PatternFill.
Proof. solve_decision. Defined.
#[global] Instance Alignment_eq_dec : EqDecision Alignment.
Proof. solve_decision. Defined.
#[global] Instance Side_eq_dec : EqDecision Side.
Proof. solve_decision. Defined.
#[global] Instance Border_eq_dec : EqDecision Border.
Proof. solve_decision. Defined.

(** ** openpyxl.cell *)

(** Control characters a cell string may not contain:
    [[\000-\010]|[\013-\014]|[\016-\037]]. *)
Definition is_illegal_character (c : ascii) : bool :=
  (ord c <=? 8) || ((11 <=? ord c) && (ord c <=? 12)) || ((14 <=? ord c) && (ord c <=? 31)).

Definition ERROR_CODES : list string :=
  ["#NULL!"; "#DIV/0!"; "#VALUE!"; "#REF!"; "#NAME?"; "#NUM!"; "#N/A"].

(** [Cell.check_string]: at most 32767 characters are kept, and control
    characters are refused. *)
Definition check_string (s : string) : result string :=
  let s := slice_to 32767 s in
  if any_char is_illegal_character s
  then Raise (IllegalCharacterError s)
  else Ok s.

Record Cell : Type := mkCell {
  _value : value;
  data_type : string;
  font : Font;
  fill : PatternFill;
  alignment : Alignment;
  border : Border
}.

#[global] Instance Cell_eq_dec : EqDecision Cell.
Proof. solve_decision. Defined.

(** [Cell._bind_value]: the data type is inferred from the Python type;
    a string that begins with [=] is a formula, an error code is an
    error. *)
Definition _bind_value (v : value) : result (string * value) :=
  match v with
  | PyNone => Ok ("n", PyNone)
  | PyInt _ | PyFloat _ _ => Ok ("n", v)
  | PyBool _ => Ok ("b", v)
  | PyStr s =>
      s' ← check_string s;
      Ok (if (1 <? len s') && startswith "=" s' then "f"
          else if bool_decide (s' ∈ ERROR_CODES) then "e"
          else "s",
          PyStr s')
  end.

(** [Cell(ws, row, column, value)]: an unstyled cell. *)
Definition new_Cell (v : value) : result Cell :=
  '(dt, v') ← _bind_value v;
  Ok {| _value := v'; data_type := dt; font := DEFAULT_FONT;
        fill := DEFAULT_EMPTY_FILL; alignment := DEFAULT_ALIGNMENT;
        border := DEFAULT_BORDER |}.

Definition EMPTY_CELL : Cell :=
  {| _value := PyNone; data_type := "n"; font := DEFAULT_FONT;
     fill := DEFAULT_EMPTY_FILL; alignment := DEFAULT_ALIGNMENT;
     border := DEFAULT_BORDER |}.

Definition with_font (f : Font) (c : Cell) : Cell :=
  {| _value := _value c; data_type := data_type c; font := f; fill := fill c;
     alignment := alignment c; border := border c |}.
Definition with_fill (f : PatternFill) (c : Cell) : Cell :=
  {| _value := _value c; data_type := data_type c; font := font c; fill := f;
     alignment := alignment c; border := border c |}.
Definition with_alignment (a : Alignment) (c : Cell) : Cell :=
  {| _value := _value c; data_type := data_type c; font := font c; fill := fill c;
     alignment := a; border := border c |}.
Definition with_border (bd : Border) (c : Cell) : Cell :=
  {| _value := _value c; data_type := data_type c; font := font c; fill := fill c;
     alignment := alignment c; border := bd |}.

(** ** openpyxl.worksheet *)

(** The frozen pane of the sheet view. *)
Record Pane : Type := mkPane {
  topLeftCell : string;
  xSplit : option Z;
  ySplit : option Z;
  activePane : string;
  state : string
}.

#[global] Instance Pane_eq_dec : EqDecision Pane.
Proof. solve_decision. Defined.

(** A worksheet: the cell dictionary keyed by (row, column), the row
    counter [append] advances, the pane of the sheet view, the reference
    of the auto-filter, and the widths set in [column_dimensions] (keyed
    by column letter; a missing key is a column left at the default). *)
Record Worksheet : Type := mkWorksheet {
  title : string;
  _cells : gmap (Z * Z) Cell;
  _current_row : Z;
  pane : option Pane;
  auto_filter_ref : option string;
  column_dimensions : gmap string Z
}.

#[global] Instance Worksheet_eq_dec : EqDecision Worksheet.
Proof. solve_decision. Defined.

Definition with_title (t : string) (ws : Worksheet) : Worksheet :=
  {| title := t; _cells := _cells ws; _current_row := _current_row ws;
     pane := pane ws; auto_filter_ref := auto_filter_ref ws;
     column_dimensions := column_dimensions ws |}.
Definition with_cells (m : gmap (Z * Z) Cell) (ws : Worksheet) : Worksheet :=
  {| title := title ws; _cells := m; _current_row := _current_row ws;
     pane := pane ws; auto_filter_ref := auto_filter_ref ws;
     column_dimensions := column_dimensions ws |}.
Definition with_current_row (r : Z) (ws : Worksheet) : Worksheet :=
  {| title := title ws; _cells := _cells ws; _current_row := r;
     pane := pane ws; auto_filter_ref := auto_filter_ref ws;
     column_dimensions := column_dimensions ws |}.
Definition with_pane (p : option Pane) (ws : Worksheet) : Worksheet :=
  {| title := title ws; _cells := _cells ws; _current_row := _current_row ws;
     pane := p; auto_filter_ref := auto_filter_ref ws;
     column_dimensions := column_dimensions ws |}.
Definition with_auto_filter_ref (r : option string) (ws : Worksheet) : Worksheet :=
  {| title := title ws; _cells := _cells ws; _current_row := _current_row ws;
     pane := pane ws; auto_filter_ref := r;
     column_dimensions := column_dimensions ws |}.
Definition with_column_dimensions (d : gmap string Z) (ws : Worksheet) : Worksheet :=
  {| title := title ws; _cells := _cells ws; _current_row := _current_row ws;
     pane := pane ws; auto_filter_ref := auto_filter_ref ws;
     column_dimensions := d |}.

(** [ws.append(iterable)] for a list: the values go to the row after
    [_current_row], columns 1, 2, ... *)
Definition append (iterable : list value) : M Worksheet unit :=
  ws ← get;
  let row_idx := _current_row ws + 1 in
  _ ← for_each (enumerate iterable 1) (λ '(col_idx, content),
        cell ← lift (new_Cell content);
        modify (λ ws, with_cells (<[(row_idx, col_idx) := cell]> (_cells ws)) ws));
  modify (with_current_row row_idx).

(** [ws.cell(row=.., column=..)]: the cell is created empty when the
    sheet has none there.  The result is the key of the cell in [_cells]:
    the Python object returned is the one stored in the dictionary, so a
    later assignment to one of its attributes is an update at that key. *)
Definition cell (row column : Z) : M Worksheet (Z * Z) :=
  if (row <? 1) || (column <? 1)
  then raise (ValueError "Row or column values must be at least 1")
  else if negb ((0 <? row) && (row <? 1048577))
  then raise (ValueError "Row numbers must be between 1 and 1048576")
  else
    ws ← get;
    _ ← match _cells ws !! (row, column) with
        | Some _ => mret tt
        | None =>
            put (with_current_row (Z.max row (_current_row ws))
                   (with_cells (<[(row, column) := EMPTY_CELL]> (_cells ws)) ws))
        end;
    mret (row, column).

(** [cell.font = ..], [cell.fill = ..], [cell.alignment = ..],
    [cell.border = ..] on a cell obtained from [ws.cell]. *)
Definition set_cell (f : Cell → Cell) (at_ : Z * Z) : M Worksheet unit :=
  modify (λ ws, with_cells (alter f at_ (_cells ws)) ws).

Definition rows_of (ws : Worksheet) : list Z := (map_to_list (_cells ws)).*1.*1.
Definition columns_of (ws : Worksheet) : list Z := (map_to_list (_cells ws)).*1.*2.

(** [ws.max_row] and [ws.max_column]: 1 for an empty sheet. *)
Definition max_row (ws : Worksheet) : Z :=
  match rows_of ws with
  | [] => 1
  | r :: rs => fold_left Z.max rs r
  end.
Definition max_column (ws : Worksheet) : Z :=
  match columns_of ws with
  | [] => 1
  | c :: cs => fold_left Z.max cs c
  end.

(** Python's [x or d] on an optional integer argument. *)
Definition or_default (x : option Z) (d : Z) : Z :=
  match x with
  | Some v => if v =? 0 then d else v
  | None => d
  end.

(** [for row in ws.iter_rows(min_row=.., max_row=.., min_col=.., max_col=..): body(row)].
    The bounds are fixed when the iteration starts; the cells of a row are
    fetched (and created when absent) as the row is produced. *)
Definition iter_rows (min_row max_row_ min_col max_col : option Z)
    (body : list (Z * Z) → M Worksheet unit) : M Worksheet unit :=
  ws ← get;
  if (_current_row ws =? 0)
     && bool_decide (Forall (λ x, or_default x 0 = 0) [min_col; min_row; max_col; max_row_])
  then mret tt
  else
    let min_col := or_default min_col 1 in
    let min_row := or_default min_row 1 in
    let max_col := or_default max_col (max_column ws) in
    let max_row_ := or_default max_row_ (max_row ws) in
    for_each (range min_row (max_row_ + 1)) (λ row,
      cells ← mapM (λ column, cell row column) (range min_col (max_col + 1));
      body cells).

Definition drop_dollar (s : list ascii) : list ascii :=
  match s with
  | c :: s' => if Ascii.eqb c "$" then s' else s
  | [] => s
  end.

Fixpoint count_while (p : ascii → bool) (s : list ascii) : nat :=
  match s with
  | c :: s' => if p c then S (count_while p s') else O
  | [] => O
  end.

(** [[A-Za-z]{1,3}]. *)
Definition letters_1_3 (s : list ascii) : option (list ascii) :=
  let n := Nat.min 3 (count_while is_alpha s) in
  if (n =? 0)%nat then None else Some (drop n s).

(** [$] of a Python pattern: the end, or the line feed that ends the
    string. *)
Definition at_end (s : list ascii) : bool :=
  match s with
  | [] => true
  | [c] => Ascii.eqb c (chr 10)
  | _ => false
  end.

(** The pattern of the [CellRange] descriptor:
    [^[$]?([A-Za-z]{1,3})[$]?(\d+)(:[$]?([A-Za-z]{1,3})[$]?(\d+)?)?$|^[A-Za-z]{1,3}:[A-Za-z]{1,3}$]. *)
Definition matches_cell_range (v : string) : bool :=
  let first :=
    match letters_1_3 (drop_dollar (chars v)) with
    | None => false
    | Some s1 =>
        let s2 := drop_dollar s1 in
        let n := count_while is_digit s2 in
        if (n =? 0)%nat then false
        else
          match drop n s2 with
          | c :: s3 =>
              if Ascii.eqb c ":" then
                match letters_1_3 (drop_dollar s3) with
                | None => false
                | Some s4 =>
                    let s5 := drop_dollar s4 in
                    at_end (drop (count_while is_digit s5) s5)
                end
              else at_end (c :: s3)
          | [] => true
          end
    end in
  let second :=
    match letters_1_3 (chars v) with
    | Some (c :: s1) =>
        Ascii.eqb c ":" &&
        match letters_1_3 s1 with
        | Some s2 => at_end s2
        | None => false
        end
    | _ => false
    end in
  first || second.

(** [ws.auto_filter.ref = value]: the reference is upper-cased and must
    be a cell range. *)
Definition set_auto_filter_ref (v : string) : M Worksheet unit :=
  let v := upper v in
  if matches_cell_range v
  then modify (with_auto_filter_ref (Some v))
  else raise (ValueError "Value does not match pattern").

(** [ws.freeze_panes = topLeftCell]: rows above and columns left of the
    cell are frozen; [A1] or nothing unfreezes. *)
Definition set_freeze_panes (topLeftCell : string) : M Worksheet unit :=
  if String.eqb topLeftCell "A1" || String.eqb topLeftCell EmptyString
  then modify (with_pane None)
  else
    '(row, column) ← lift (coordinate_to_tuple topLeftCell);
    modify (with_pane (Some
      {| topLeftCell := topLeftCell;
         xSplit := if 1 <? column then Some (column - 1) else None;
         ySplit := if 1 <? row then Some (row - 1) else None;
         activePane := if 1 <? row
                       then (if 1 <? column then "bottomRight" else "bottomLeft")
                       else "topRight";
         state := "frozen" |})).

(** [ws.freeze_panes]. *)
Definition freeze_panes (ws : Worksheet) : option string :=
  topLeftCell <$> pane ws.

(** [ws.column_dimensions[key].width = w]: the entry is created on first
    access. *)
Definition set_column_width (key : string) (w : Z) : M Worksheet unit :=
  modify (λ ws, with_column_dimensions (<[key := w]> (column_dimensions ws)) ws).

(** ** openpyxl.workbook *)

(** Characters a sheet title may not contain: [[\\*?:/\[\]]]. *)
Definition is_invalid_title_char (c : ascii) : bool :=
  bool_decide (c ∈ chars "\*?:/[]").

(** One attempt, at the head of [names] and ignoring case, of the pattern
    made of [value], a run of digits and an optional comma: the digits
    matched and the text after the match. *)
Definition match_title (value : string) (names : list ascii)
  : option (string * list ascii) :=
  if String.prefix (lower value) (lower (string_of_list_ascii names)) then
    let rest := drop (String.length value) names in
    let n := count_while is_digit rest in
    let after := drop n rest in
    Some (string_of_list_ascii (take n rest),
          match after with
          | c :: after' => if Ascii.eqb c "," then after' else after
          | [] => after
          end)
  else None.

(** [findall] of that pattern: successive matches, left to right. *)
Fixpoint findall_title (fuel : nat) (value : string) (names : list ascii)
  : list string :=
  match fuel with
  | O => []
  | S fuel' =>
      match match_title value names with
      | Some (count, after) => count :: findall_title fuel' value after
      | None =>
          match names with
          | [] => []
          | _ :: names' => findall_title fuel' value names'
          end
      end
  end.

(** [avoid_duplicate_name(names, value)]: a title equal to an existing
    one up to case gets the next free number appended.  Case is folded
    with [lower], so this is the library's function on ASCII titles. *)
Definition avoid_duplicate_name (names : list string) (value : string) : string :=
  if existsb (λ n, String.eqb (lower n) (lower value)) names then
    let joined := chars (join "," names) in
    match findall_title (S (length joined)) value joined with
    | [] => value
    | matches =>
        let counts := digits_value <$> filter (λ idx, isdigit idx = true) matches in
        let highest := fold_left Z.max counts 0 in
        cat [value; str_int (highest + 1)]
    end
  else value.

(** The [title] setter of a workbook child whose title is [current],
    among sheets named [sheetnames]. *)
Definition checked_title (sheetnames : list string) (current value : string)
  : result string :=
  if String.eqb value EmptyString
  then Raise (ValueError "Title must have at least one character")
  else if any_char is_invalid_title_char value
  then Raise (ValueError "Invalid character found in sheet title")
  else if negb (String.eqb current value)
  then Ok (avoid_duplicate_name sheetnames value)
  else Ok value.

(** A workbook: its sheets in tab order, the index of the active one, and
    the two timestamps of its document properties. *)
Record Workbook : Type := mkWorkbook {
  _sheets : list Worksheet;
  _active_sheet_index : nat;
  created : Z;
  modified : Z
}.

#[global] Instance Workbook_eq_dec : EqDecision Workbook.
Proof. solve_decision. Defined.

Definition with_sheets (l : list Worksheet) (wb : Workbook) : Workbook :=
  {| _sheets := l; _active_sheet_index := _active_sheet_index wb;
     created := created wb; modified := modified wb |}.
Definition with_modified (t : Z) (wb : Workbook) : Workbook :=
  {| _sheets := _sheets wb; _active_sheet_index := _active_sheet_index wb;
     created := created wb; modified := t |}.

(** [wb.sheetnames]. *)
Definition sheetnames (wb : Workbook) : list string := title <$> _sheets wb.

(** [Worksheet(parent, title)]: an empty sheet; without a title it is
    called [Sheet]. *)
Definition new_Worksheet (parent : Workbook) (title : option string)
  : result Worksheet :=
  let wanted := match title with
                | Some t => if String.eqb t EmptyString then "Sheet" else t
                | None => "Sheet"
                end in
  t ← checked_title (sheetnames parent) EmptyString wanted;
  Ok {| title := t; _cells := ∅; _current_row := 0; pane := None;
        auto_filter_ref := None; column_dimensions := ∅ |}.

(** [openpyxl.Workbook()] at time [now]: one sheet, titled [Sheet]. *)
Definition new_Workbook (now : Z) : Workbook :=
  {| _sheets := [ {| title := "Sheet"; _cells := ∅; _current_row := 0; pane := None;
                     auto_filter_ref := None; column_dimensions := ∅ |} ];
     _active_sheet_index := 0;
     created := now;
     modified := now |}.

(** A worksheet variable of the script denotes a sheet of the workbook by
    its position in [_sheets]: the script never removes or moves a sheet,
    so the position identifies the object for the whole run. *)
Definition sheet_ref : Type := nat.

(** [wb.active]: [None] when the index points at no sheet. *)
Definition active : M Workbook (option sheet_ref) :=
  wb ← get;
  mret (if _sheets wb !! _active_sheet_index wb is Some _
        then Some (_active_sheet_index wb) else None).

(** [wb.create_sheet(title)]: the new sheet is appended. *)
Definition create_sheet (title : string) : M Workbook sheet_ref :=
  wb ← get;
  new_ws ← lift (new_Worksheet wb (Some title));
  _ ← put (with_sheets (_sheets wb ++ [new_ws]) wb);
  mret (length (_sheets wb)).

(** A statement on the worksheet a variable denotes.  What the statement
    did to the sheet stays done when it raises. *)
Definition on_sheet {A} (ws : sheet_ref) (m : M Worksheet A) : M Workbook A :=
  λ wb, match _sheets wb !! ws with
        | Some sheet =>
            let '(r, sheet') := m sheet in
            (r, with_sheets (<[ws := sheet']> (_sheets wb)) wb)
        | None => (Raise (AttributeError "'NoneType' object"), wb)
        end.

(** [ws.title = value]. *)
Definition set_title (ws : sheet_ref) (value : string) : M Workbook unit :=
  wb ← get;
  on_sheet ws (
    sheet ← get;
    t ← lift (checked_title (sheetnames wb) (title sheet) value);
    put (with_title t sheet)).

End openpyxl.

Import openpyxl.

(* ===================================================================== *)
(** * The interpreter process *)
(* ===================================================================== *)

Module Sys.

(** How a standard stream of the process takes text.  [Accepts]: what is
    written arrives.  [Absent]: the descriptor was closed when the
    interpreter started, the stream object is [None] and [print] does
    nothing.  [FlushFails msg]: the stream is buffered and what it is
    connected to cannot be written (a full device, a closed pipe); a
    write only fills the buffer, and the flush when the interpreter exits
    fails with [msg].  [WriteFails msg]: the stream is written through
    (unbuffered) and cannot be written; the write itself raises
    [OSError(msg)]. *)
Inductive stream : Type :=
| Accepts
| Absent
| FlushFails (msg : string)
| WriteFails (msg : string).

(** What a run meets outside the program, once the imports of lines 8 to
    10 have succeeded: the clock when the workbook object is made and
    when it is saved, what happens when the archive is written at a path
    ([None]: the file is written, [Some msg]: the operating system
    refuses with that message), and how standard output and standard
    error take text. *)
Record World : Type := mkWorld {
  time_at_start : Z;
  time_at_save : Z;
  write_file : string → option string;
  standard_output : stream;
  standard_error : stream
}.

(** The state of the run: the global [wb] (unbound before its
    assignment), the lines [print] has handed to standard output so far,
    and the files written. *)
Record Process : Type := mkProcess {
  wb : option Workbook;
  stdout : list string;
  files : gmap string Workbook
}.

Definition initial : Process := {| wb := None; stdout := []; files := ∅ |}.

(** [wb = openpyxl.Workbook()]. *)
Definition bind_wb (W : World) : M Process unit :=
  modify (λ p, {| wb := Some (new_Workbook (time_at_start W));
                  stdout := stdout p; files := files p |}).

(** Statements on the workbook bound to the global [wb]. *)
Definition on_wb {A} (m : M Workbook A) : M Process A :=
  λ p, match wb p with
       | Some w =>
           let '(r, w') := m w in
           (r, {| wb := Some w'; stdout := stdout p; files := files p |})
       | None => (Raise (NameError "wb"), p)
       end.

(** [wb.save(filename)]: the archive is opened for writing, the
    modification time is stamped, the workbook is written.  A refusal is
    taken where the archive is opened, so that nothing has changed when
    the exception is raised.  [files] records the workbooks written in
    full: an archive cut short by a failure midway is not among them. *)
Definition save (W : World) (filename : string) : M Process unit :=
  λ p, match wb p with
       | None => (Raise (NameError "wb"), p)
       | Some w =>
           match write_file W filename with
           | Some msg => (Raise (OSError msg), p)
           | None =>
               let w' := with_modified (time_at_save W) w in
               (Ok tt, {| wb := Some w'; stdout := stdout p;
                          files := <[filename := w']> (files p) |})
           end
       end.

(** [print(line)]: nothing without a stream, [OSError] when the stream is
    written through and cannot be written, and otherwise the line is
    handed to the stream. *)
Definition print (W : World) (line : string) : M Process unit :=
  match standard_output W with
  | Absent => mret tt
  | WriteFails msg => raise (OSError msg)
  | Accepts | FlushFails _ =>
      modify (λ p, {| wb := wb p; stdout := stdout p ++ [line]; files := files p |})
  end.

(** The lines that have reached what standard output is connected to
    when the process is gone. *)
Definition delivered (W : World) (p : Process) : list string :=
  match standard_output W with
  | Accepts => stdout p
  | _ => []
  end.

(** The flush of standard output at exit fails: the stream cannot be
    written and something is in its buffer. *)
Definition stdout_flush_fails (W : World) (p : Process) : bool :=
  match standard_output W with
  | FlushFails _ => bool_decide (stdout p ≠ [])
  | _ => false
  end.

(** The flush of standard error at exit fails: the stream cannot be
    written and the traceback of an uncaught exception is in its
    buffer. *)
Definition stderr_flush_fails {A} (W : World) (r : result A) : bool :=
  match standard_error W, r with
  | FlushFails _, Raise _ => true
  | _, _ => false
  end.

(** The exit status of the interpreter for a module body that ended as
    [r] and left the process [p]: 120 when a standard stream cannot be
    flushed at exit, otherwise 0 when the body ran to its end and 1 when
    an exception reached the top level. *)
Definition exit_status {A} (W : World) (outcome : result A * Process) : Z :=
  if stdout_flush_fails W outcome.2 || stderr_flush_fails W outcome.1 then 120
  else match outcome.1 with
       | Ok _ => 0
       | Raise _ => 1
       end.

End Sys.

Import Sys.

(* ===================================================================== *)
(** * create_template.py *)
(* ===================================================================== *)

Module create_template.

(** A list literal of [str]. *)
Definition strs (l : list string) : list value := PyStr <$> l.

(** [len(xs)]. *)
Definition len_list {A} (xs : list A) : Z := Z.of_nat (length xs).

(** Dereferencing a variable that may hold [None]. *)
Definition attr_of (ws : option sheet_ref) : M Workbook sheet_ref :=
  match ws with
  | Some r => mret r
  | None => raise (AttributeError "'NoneType' object has no attribute")
  end.

Section Styles.

(** The module-level style objects [style_header] refers to. *)
Variables (header_font : Font) (header_fill : PatternFill)
          (header_align : Alignment) (thin_border : Border).

Definition style_header (ws : sheet_ref) (num_cols : Z) : M Workbook unit :=
  _ ← for_each (range 1 (num_cols + 1)) (λ col,
        cell ← on_sheet ws (cell 1 col);
        _ ← on_sheet ws (set_cell (with_font header_font) cell);
        _ ← on_sheet ws (set_cell (with_fill header_fill) cell);
        _ ← on_sheet ws (set_cell (with_alignment header_align) cell);
        on_sheet ws (set_cell (with_border thin_border) cell));
  _ ← on_sheet ws (set_freeze_panes "A2");
  letter ← lift (get_column_letter num_cols);
  on_sheet ws (set_auto_filter_ref (cat ["A1:"; letter; "1"])).

(** ** Tab 1: Settings (key-value config) *)

Definition settings_defaults : list (list value) :=
  [ strs ["mode"; "group"];
    strs ["distribute_email"; "true"];
    strs ["distribute_canvas"; "false"];
    strs ["grade_scale"; "0-100"];
    strs ["teacher_email"; EmptyString];
    strs ["teacher_name"; EmptyString];
    strs ["email_subject_template"; "Harkness Discussion Report - {date}"];
    strs ["gemini_model"; "gemini-2.0-flash"];
    strs ["elevenlabs_model"; "scribe_v2"];
    strs ["canvas_course_id"; EmptyString];
    strs ["canvas_base_url"; EmptyString];
    strs ["canvas_item_type"; "assignment"] ].

Definition tab_settings : M Workbook unit :=
  ws_settings ← active;
  ws_settings ← attr_of ws_settings;
  _ ← set_title ws_settings "Settings";
  _ ← on_sheet ws_settings (append (strs ["setting_key"; "setting_value"]));
  _ ← style_header ws_settings 2;
  _ ← for_each settings_defaults (λ row, on_sheet ws_settings (append row));
  _ ← on_sheet ws_settings (set_column_width "A" 30);
  on_sheet ws_settings (set_column_width "B" 50).

(** ** Tab 2: Discussions *)

Definition disc_headers : list value :=
  strs [ "status"; "next_step"; "date"; "section"; "course";
         "grade"; "approved"; "group_feedback";
         "canvas_assignment_id"; "canvas_item_type";
         "discussion_id"; "audio_file_id"; "error_message";
         "created_at"; "updated_at" ].

Definition disc_widths : list Z := [12; 30; 12; 12; 14; 8; 10; 40; 18; 14; 18; 18; 30; 18; 18].

Definition tab_discussions : M Workbook unit :=
  ws_disc ← create_sheet "Discussions";
  _ ← on_sheet ws_disc (append disc_headers);
  _ ← style_header ws_disc (len_list disc_headers);
  for_each (enumerate disc_widths 1) (λ '(i, w),
    letter ← lift (get_column_letter i);
    on_sheet ws_disc (set_column_width letter w)).

(** ** Tab 3: Students *)

Definition stu_headers : list value :=
  strs ["name"; "email"; "section"; "course"; "canvas_user_id"; "student_id"].

Definition stu_widths : list Z := [22; 28; 14; 14; 14; 18].

Definition tab_students : M Workbook unit :=
  ws_stu ← create_sheet "Students";
  _ ← on_sheet ws_stu (append stu_headers);
  _ ← style_header ws_stu (len_list stu_headers);
  for_each (enumerate stu_widths 1) (λ '(i, w),
    letter ← lift (get_column_letter i);
    on_sheet ws_stu (set_column_width letter w)).

(** ** Tab 4: Transcripts *)

Definition trans_headers : list value :=
  strs [ "discussion_id"; "raw_transcript"; "speaker_map"; "named_transcript";
         "created_at"; "updated_at" ].

Definition trans_widths : list Z := [18; 60; 30; 60; 18; 18].

Definition tab_transcripts : M Workbook unit :=
  ws_trans ← create_sheet "Transcripts";
  _ ← on_sheet ws_trans (append trans_headers);
  _ ← style_header ws_trans (len_list trans_headers);
  for_each (enumerate trans_widths 1) (λ '(i, w),
    letter ← lift (get_column_letter i);
    on_sheet ws_trans (set_column_width letter w)).

(** ** Tab 5: SpeakerMap *)

Definition sm_headers : list value :=
  strs ["discussion_id"; "speaker_label"; "suggested_name"; "student_name"; "confirmed"].

Definition sm_widths : list Z := [18; 14; 20; 20; 10].

Definition tab_speakermap : M Workbook unit :=
  ws_sm ← create_sheet "SpeakerMap";
  _ ← on_sheet ws_sm (append sm_headers);
  _ ← style_header ws_sm (len_list sm_headers);
  for_each (enumerate sm_widths 1) (λ '(i, w),
    letter ← lift (get_column_letter i);
    on_sheet ws_sm (set_column_width letter w)).

(** ** Tab 6: StudentReports *)

Definition rep_headers : list value :=
  strs [ "student_name"; "grade"; "approved"; "sent"; "feedback";
         "discussion_id"; "transcript_contributions"; "participation_summary";
         "student_id"; "report_id"; "created_at"; "updated_at" ].

Definition rep_widths : list Z := [20; 8; 10; 8; 40; 18; 40; 30; 18; 18; 18; 18].

Definition tab_studentreports : M Workbook unit :=
  ws_rep ← create_sheet "StudentReports";
  _ ← on_sheet ws_rep (append rep_headers);
  _ ← style_header ws_rep (len_list rep_headers);
  for_each (enumerate rep_widths 1) (λ '(i, w),
    letter ← lift (get_column_letter i);
    on_sheet ws_rep (set_column_width letter w)).

(** ** Tab 7: Prompts *)

Definition speaker_identification_text : string := text
  [ "You are analyzing the beginning of a classroom Harkness discussion recording.";
    EmptyString;
    "Students typically introduce themselves at the start. Listen for patterns like:";
    cat ["- "; quoted "Hi, I'm [name]"];
    cat ["- "; quoted "My name is [name]"];
    cat ["- "; quoted "This is [name]"];
    cat ["- "; quoted "[Name] here"];
    "- Other natural introductions";
    EmptyString;
    "Analyze this transcript excerpt and identify which speaker label corresponds to which student name.";
    EmptyString;
    "IMPORTANT RULES:";
    "1. Only include speakers you can confidently identify from explicit introductions";
    cat ["2. If a speaker cannot be identified, map them to "; quoted "?"; " instead"];
    "3. Be case-sensitive with names as they appear";
    cat ["4. The teacher may also speak — if identified, include them as "; quoted "Teacher"];
    EmptyString;
    "Return ONLY a valid JSON object mapping speaker labels to names.";
    cat ["Example format: {"; quoted "Speaker 0"; ": "; quoted "Maria"; ", "; quoted "Speaker 1"; ": "; quoted "James"; ", "; quoted "Speaker 2"; ": "; quoted "Teacher"; ", "; quoted "Speaker 3"; ": "; quoted "?"; "}"];
    EmptyString;
    "Transcript excerpt:";
    "{transcript}";
    EmptyString;
    "JSON mapping:" ].

Definition group_feedback_text : string := text
  [ "You are a high school teacher analyzing a Harkness discussion. You will produce exactly two paragraphs.";
    EmptyString;
    "**PARAGRAPH 1 — Discussion Summary** (Neutral Voice)";
    cat ["Write in a neutral, objective, third-person voice. Provide a detailed summary of the discussion's main topics and flow. Identify 2-3 "; quoted "defining moments"; " — key turning points, breakthrough ideas, or significant challenges that shaped the conversation."];
    EmptyString;
    "**PARAGRAPH 2 — Evaluative Comment** (Teacher Voice)";
    cat ["Write in the teacher's voice, directed at the class ("; quoted "you"; " plural, "; quoted "I"; " for the teacher). The tone must be direct, informal, supportive, and clear. Follow this mandatory "; quoted "Critique Sandwich"; " structure:"];
    EmptyString;
    cat ["1. **The Grade**: State the grade clearly and colloquially in the first sentence. (e.g., "; quoted "This was a strong discussion, earning a solid 8.5 out of 10."; ", "; quoted "This was a decent but not great start... 7/10."; ")"];
    "2. **The Good**: Highlight 2-3 specific positive achievements. Credit specific students by name, linking them to their idea or contribution.";
    "3. **The Gap**: Identify the primary weakness or area for growth.";
    "4. **The Next Step**: Conclude with a single, clear, actionable goal for the next discussion.";
    EmptyString;
    "**Tone alignment with grade:**";
    cat ["- High grade (9-10): Frame positives as "; quoted "excellent"; " or "; quoted "deep"; "; the gap is a "; quoted "final step"; " to the next level."];
    cat ["- Medium grade (7-8.5): Balanced ("; quoted "solid,"; " "; quoted "decent start"; ") with a more significant gap to work on."];
    "- Lower grade (below 7): Honest but encouraging; clear gap with concrete next steps.";
    EmptyString;
    "**Important:**";
    cat ["- If the teacher gave oral feedback during the discussion (often near the end — look for phrases like "; quoted "my evaluation,"; " "; quoted "my feedback,"; " or the teacher summarizing), align your evaluation with their points."];
    "- Credit specific students by name for notable contributions.";
    cat ["- If the teacher intervened to guide the discussion, acknowledge this (e.g., "; quoted "I had to provide the key synthesizing question"; ")."];
    EmptyString;
    "Grade: {grade}";
    EmptyString;
    "Transcript:";
    "{transcript}";
    EmptyString;
    "Write the two paragraphs now (summary paragraph first, then evaluative comment):" ].

Definition individual_feedback_text : string := text
  [ "You are a high school teacher providing personalized feedback to {student_name} about their Harkness discussion participation. You will produce exactly two paragraphs.";
    EmptyString;
    "**PARAGRAPH 1 — Contribution Summary** (Neutral Voice)";
    "Write in a neutral, objective voice. Summarize what {student_name} contributed to the discussion — their main points, arguments, and how they engaged with other students' ideas. Note specific moments where they advanced or redirected the conversation.";
    EmptyString;
    "**PARAGRAPH 2 — Evaluative Comment** (Teacher Voice)";
    cat ["Write in the teacher's voice, directed at the student ("; quoted "you"; "). The tone must be direct, informal, supportive, and clear. Follow this "; quoted "Critique Sandwich"; " structure:"];
    EmptyString;
    "1. **The Grade**: State the grade clearly in the first sentence.";
    "2. **The Good**: Highlight 2-3 specific strengths from their participation, referencing actual points they made.";
    "3. **The Gap**: Identify their primary area for growth as a discussion participant.";
    "4. **The Next Step**: Conclude with a single, actionable goal for their next discussion.";
    EmptyString;
    "**Tone alignment with grade:**";
    cat ["- High grade (9-10): "; quoted "Excellent"; " contributions; the gap is a stretch goal."];
    cat ["- Medium grade (7-8.5): "; quoted "Solid"; " participation with clear room to grow."];
    "- Lower grade (below 7): Encouraging but honest about what's missing.";
    EmptyString;
    "**Important:**";
    cat ["- If the teacher gave oral feedback during the discussion (often near the end — look for phrases like "; quoted "my evaluation,"; " "; quoted "my feedback,"; " or the teacher summarizing), align your evaluation with their points."];
    EmptyString;
    "Grade: {grade}";
    EmptyString;
    "{student_name}'s contributions:";
    "{contributions}";
    EmptyString;
    "Full discussion transcript (for context):";
    "{transcript}";
    EmptyString;
    "Write the two paragraphs now (contribution summary first, then evaluative comment for {student_name}):" ].

Definition prompts : list (list value) :=
  [ [PyStr "SPEAKER_IDENTIFICATION"; PyStr speaker_identification_text];
    [PyStr "GROUP_FEEDBACK"; PyStr group_feedback_text];
    [PyStr "INDIVIDUAL_FEEDBACK"; PyStr individual_feedback_text] ].

Definition tab_prompts : M Workbook unit :=
  ws_prompts ← create_sheet "Prompts";
  _ ← on_sheet ws_prompts (append (strs ["prompt_name"; "prompt_text"]));
  _ ← style_header ws_prompts 2;
  _ ← for_each prompts (λ row, on_sheet ws_prompts (append row));
  _ ← on_sheet ws_prompts (set_column_width "A" 28);
  _ ← on_sheet ws_prompts (set_column_width "B" 100);
  (* Wrap text in prompt_text column *)
  on_sheet ws_prompts (iter_rows (Some 2) None (Some 2) (Some 2) (λ row,
    for_each row (λ cell,
      a ← lift (new_Alignment None (Some "top") (Some true));
      set_cell (with_alignment a) cell))).

(** ** Tab 8: Courses (multi-course Canvas config) *)

Definition courses_headers : list value :=
  strs ["course_name"; "canvas_course_id"; "canvas_base_url"; "canvas_item_type"].

Definition courses_widths : list Z := [24; 18; 36; 14].

Definition tab_courses : M Workbook unit :=
  ws_courses ← create_sheet "Courses";
  _ ← on_sheet ws_courses (append courses_headers);
  _ ← style_header ws_courses (len_list courses_headers);
  for_each (enumerate courses_widths 1) (λ '(i, w),
    letter ← lift (get_column_letter i);
    on_sheet ws_courses (set_column_width letter w)).

(** The eight tabs, in the order the module body builds them. *)
Definition tabs : M Workbook unit :=
  _ ← tab_settings;
  _ ← tab_discussions;
  _ ← tab_students;
  _ ← tab_transcripts;
  _ ← tab_speakermap;
  _ ← tab_studentreports;
  _ ← tab_prompts;
  tab_courses.

End Styles.

(** ** Save *)

Definition output_path : string := "Harkness_Helper_Template.xlsx".

(** The statements before [wb.save]: the workbook, the style objects and
    the tabs. *)
Definition construction (W : World) : M Process unit :=
  _ ← bind_wb W;
  header_font ← lift (new_Font (Some "Arial") (Some 11) (Some true) (Some "FFFFFF"));
  header_fill ← lift (new_PatternFill "4285F4" "4285F4" "solid");
  header_align ← lift (new_Alignment (Some "center") (Some "center") (Some true));
  body_font ← lift (new_Font (Some "Arial") (Some 10) None None);
  body_align ← lift (new_Alignment None (Some "top") (Some true));
  left ← lift (new_Side "thin" "CCCCCC");
  right ← lift (new_Side "thin" "CCCCCC");
  top ← lift (new_Side "thin" "CCCCCC");
  bottom ← lift (new_Side "thin" "CCCCCC");
  let thin_border := {| left := left; right := right; top := top; bottom := bottom |} in
  on_wb (tabs header_font header_fill header_align thin_border).

(** The module body. *)
Definition main (W : World) : M Process unit :=
  _ ← construction W;
  _ ← save W output_path;
  print W (cat ["Template saved to: "; output_path]).

(** [python3 create_template.py] in world [W], where the imports of
    lines 8 to 10 succeed: how the module body ended, and the process it
    left. *)
Definition python3 (W : World) : result unit * Process := main W initial.

(** The same from line 8 on.  Where the library is not installed,
    [import openpyxl] raises ModuleNotFoundError before any other
    statement has run; where it is, the imports bind names only and the
    body follows. *)
Definition script (openpyxl_installed : bool) (W : World) : result unit * Process :=
  if openpyxl_installed then python3 W
  else (Raise (ModuleNotFoundError "No module named 'openpyxl'"), initial).

End create_template.

Import create_template.

(* ===================================================================== *)
(** * What the specification says, and how a workbook is inspected *)
(* ===================================================================== *)

Module Spec.

(** Section 6: the sheets and their header schemas, in order. *)
Definition header_schema : list (string * list string) :=
  [ ("Settings", ["setting_key"; "setting_value"]);
    ("Discussions",
       ["status"; "next_step"; "date"; "section"; "course"; "grade"; "approved";
        "group_feedback"; "canvas_assignment_id"; "canvas_item_type";
        "discussion_id"; "audio_file_id"; "error_message"; "created_at";
        "updated_at"]);
    ("Students", ["name"; "email"; "section"; "course"; "canvas_user_id"; "student_id"]);
    ("Transcripts",
       ["discussion_id"; "raw_transcript"; "speaker_map"; "named_transcript";
        "created_at"; "updated_at"]);
    ("SpeakerMap",
       ["discussion_id"; "speaker_label"; "suggested_name"; "student_name";
        "confirmed"]);
    ("StudentReports",
       ["student_name"; "grade"; "approved"; "sent"; "feedback"; "discussion_id";
        "transcript_contributions"; "participation_summary"; "student_id";
        "report_id"; "created_at"; "updated_at"]);
    ("Prompts", ["prompt_name"; "prompt_text"]);
    ("Courses",
       ["course_name"; "canvas_course_id"; "canvas_base_url"; "canvas_item_type"]) ].

(** Section 3: the fixed sheet names. *)
Definition sheet_names : list string :=
  ["Settings"; "Discussions"; "Students"; "Transcripts"; "SpeakerMap";
   "StudentReports"; "Prompts"; "Courses"].

(** What is said of a default setting's value: the value itself, a token
    it contains, or nothing. *)
Inductive expected : Type :=
| Exactly (v : string)
| Containing (token : string)
| Unstated.

(** [token] occurs in [s]: some text, the token, some text. *)
Definition occurs_in (token s : string) : Prop :=
  ∃ before after, s = before +:+ token +:+ after.

Definition meets (e : expected) (v : string) : Prop :=
  match e with
  | Exactly v' => v = v'
  | Containing token => occurs_in token v
  | Unstated => True
  end.

(** The twelve default settings, in order. *)
Definition default_settings : list (string * expected) :=
  [ ("mode", Exactly "group");
    ("distribute_email", Exactly "true");
    ("distribute_canvas", Exactly "false");
    ("grade_scale", Exactly "0-100");
    ("teacher_email", Unstated);
    ("teacher_name", Unstated);
    ("email_subject_template", Containing "{date}");
    ("gemini_model", Exactly "gemini-2.0-flash");
    ("elevenlabs_model", Exactly "scribe_v2");
    ("canvas_course_id", Unstated);
    ("canvas_base_url", Unstated);
    ("canvas_item_type", Exactly "assignment") ].


(** Section 4.1: the documented placeholder tokens. *)
Definition placeholder_tokens : list string :=
  ["{transcript}"; "{grade}"; "{student_name}"; "{contributions}"].

(** The settings whose default is left blank. *)
Definition blank_settings : list string :=
  ["teacher_email"; "teacher_name"; "canvas_course_id"; "canvas_base_url"].

(** The example line of the speaker-identification prompt. *)
Definition json_example : string :=
  cat ["{"; quoted "Speaker 0"; ": "; quoted "Maria"; ", ";
       quoted "Speaker 1"; ": "; quoted "James"; ", ";
       quoted "Speaker 2"; ": "; quoted "Teacher"; ", ";
       quoted "Speaker 3"; ": "; quoted "?"; "}"].

(** The confirmation line printed on success. *)
Definition confirmation : string :=
  "Template saved to: Harkness_Helper_Template.xlsx".

End Spec.

Module Observe.

(** The workbook found at the output path after a run, if any. *)
Definition generated (W : World) : option Workbook :=
  files (python3 W).2 !! output_path.

(** [wb[name]]: the first sheet with that title. *)
Definition sheet_named (book : Workbook) (name : string) : option Worksheet :=
  List.find (λ ws, String.eqb (title ws) name) (_sheets book).

(** The cells of row [r], by increasing column. *)
Definition row_cells (ws : Worksheet) (r : Z) : list Cell :=
  omap (λ c, _cells ws !! (r, c)) (seqZ 1 (max_column ws)).

(** The values of the cells the sheet holds in row [r], by increasing
    column.  A column without a cell contributes nothing, so the list
    does not tell in which column a value sits: [value_at] and [rows_at]
    below do. *)
Definition row_values (ws : Worksheet) (r : Z) : list value :=
  _value <$> row_cells ws r.

(** The value of the cell at row [r], column [c]; [None] when the sheet
    holds no cell there. *)
Definition value_at (ws : Worksheet) (r c : Z) : option value :=
  _value <$> _cells ws !! (r, c).

(** The rows [rows] sit in the sheet from row [first] down, each from
    column A rightwards: value for value, the cell at the row's number
    and the value's column holds it. *)
Definition rows_at (ws : Worksheet) (first : Z) (rows : list (list value)) : Prop :=
  Forall (λ numbered, Forall (λ placed, value_at ws numbered.1 placed.1 = Some placed.2)
                             (enumerate numbered.2 1))
         (enumerate rows first).

(** Every cell of the sheet lies in rows 1 to [n_rows] and columns 1 to
    [n_cols]. *)
Definition within (ws : Worksheet) (n_rows n_cols : Z) : Prop :=
  map_Forall (λ k _, 1 ≤ k.1 ≤ n_rows ∧ 1 ≤ k.2 ≤ n_cols) (_cells ws).

(** How many cells the sheet holds in row [r], wherever they are. *)
Definition row_len (ws : Worksheet) (r : Z) : nat :=
  length (filter (λ k, k.1 = r) (map_to_list (_cells ws)).*1).

(** Rows [first], [first + 1], ..., [count] of them. *)
Definition rows_from (ws : Worksheet) (first : Z) (count : nat) : list (list value) :=
  row_values ws <$> seqZ first (Z.of_nat count).

(** The value of every cell, by coordinate. *)
Definition cell_values (ws : Worksheet) : gmap (Z * Z) value :=
  _value <$> _cells ws.

(** The width set for the [i]-th column, if one was set. *)
Definition width_of_column (ws : Worksheet) (i : Z) : option Z :=
  match get_column_letter i with
  | Ok letter => column_dimensions ws !! letter
  | Raise _ => None
  end.

(** The range [A1:<n-th column>1] of a header row of [n] cells. *)
Definition header_range (n : Z) : option string :=
  match get_column_letter n with
  | Ok letter => Some (cat ["A1:"; letter; "1"])
  | Raise _ => None
  end.

(** The style profile of header cells, as the style objects of the
    script come out of their constructors. *)
Definition header_font : Font :=
  {| name := Some "Arial"; sz := Some 11; b := true; color := Some (RGB "00FFFFFF") |}.
Definition header_fill : PatternFill :=
  {| patternType := Some "solid"; fgColor := Some (RGB "004285F4");
     bgColor := Some (RGB "004285F4") |}.
Definition header_align : Alignment :=
  {| horizontal := Some "center"; vertical := Some "center"; wrap_text := Some true |}.
Definition thin_side : Side :=
  {| side_style := Some "thin"; side_color := Some (RGB "00CCCCCC") |}.
Definition thin_border : Border :=
  {| left := thin_side; right := thin_side; top := thin_side; bottom := thin_side |}.

Definition header_styled (c : Cell) : Prop :=
  font c = header_font ∧ fill c = header_fill ∧
  alignment c = header_align ∧ border c = thin_border.

#[global] Instance header_styled_dec c : Decision (header_styled c).
Proof. unfold header_styled. apply _. Defined.

(** Row 1 frozen: the pane starts at [A2], one row is split off, no
    column is. *)
Definition row_1_frozen (ws : Worksheet) : Prop :=
  pane ws = Some {| topLeftCell := "A2"; xSplit := None; ySplit := Some 1;
                    activePane := "bottomLeft"; state := "frozen" |}.

(** The arguments the script uses for one sheet: its name, header list,
    widths list and default rows. *)
Record sheet_definition : Type := mkSheetDefinition {
  sd_name : string;
  sd_headers : list value;
  sd_widths : list Z;
  sd_default_rows : list (list value)
}.

Definition sheet_definitions : list sheet_definition :=
  [ {| sd_name := "Settings"; sd_headers := strs ["setting_key"; "setting_value"];
       sd_widths := [30; 50]; sd_default_rows := settings_defaults |};
    {| sd_name := "Discussions"; sd_headers := disc_headers;
       sd_widths := disc_widths; sd_default_rows := [] |};
    {| sd_name := "Students"; sd_headers := stu_headers;
       sd_widths := stu_widths; sd_default_rows := [] |};
    {| sd_name := "Transcripts"; sd_headers := trans_headers;
       sd_widths := trans_widths; sd_default_rows := [] |};
    {| sd_name := "SpeakerMap"; sd_headers := sm_headers;
       sd_widths := sm_widths; sd_default_rows := [] |};
    {| sd_name := "StudentReports"; sd_headers := rep_headers;
       sd_widths := rep_widths; sd_default_rows := [] |};
    {| sd_name := "Prompts"; sd_headers := strs ["prompt_name"; "prompt_text"];
       sd_widths := [28; 100]; sd_default_rows := prompts |};
    {| sd_name := "Courses"; sd_headers := courses_headers;
       sd_widths := courses_widths; sd_default_rows := [] |} ].

(** What adding a sheet must leave behind.  The header list and the
    default rows are read both as lists of the values present and by
    coordinate: the header list sits in row 1 from column A, the default
    rows below it from column A, and the sheet holds no cell beyond these
    rows or to the right of the header columns. *)
Definition added (d : sheet_definition) (ws : Worksheet) : Prop :=
  title ws = sd_name d
  ∧ row_values ws 1 = sd_headers d
  ∧ rows_at ws 1 (sd_headers d :: sd_default_rows d)
  ∧ within ws (1 + len_list (sd_default_rows d)) (len_list (sd_headers d))
  ∧ map_Forall (λ k c, header_styled c ↔ (k.1 = 1 ∧ 1 ≤ k.2 ≤ len_list (sd_headers d)))
               (_cells ws)
  ∧ row_1_frozen ws
  ∧ auto_filter_ref ws = header_range (len_list (sd_headers d))
  ∧ length (sd_widths d) = length (sd_headers d)
  ∧ width_of_column ws <$> seqZ 1 (len_list (sd_widths d)) = Some <$> sd_widths d
  ∧ size (column_dimensions ws) = length (sd_widths d)
  ∧ rows_from ws 2 (length (sd_default_rows d)) = sd_default_rows d
  ∧ max_row ws = 1 + len_list (sd_default_rows d).

#[global] Instance added_dec d ws : Decision (added d ws).
Proof. unfold added, row_1_frozen, rows_at, within. apply _. Defined.

(** The sheets every run builds, read off a run at time 0 that may
    write anywhere. *)
Definition template_sheets : list Worksheet :=
  match wb (construction {| time_at_start := 0; time_at_save := 0;
                            write_file := λ _, None;
                            standard_output := Accepts;
                            standard_error := Accepts |} initial).2 with
  | Some book => _sheets book
  | None => []
  end.

(** The substrings of [s] that run from a [{] to the next [}], in order;
    [open] holds, reversed, the span being read. *)
Fixpoint brace_spans_from (open : option (list ascii)) (s : list ascii) : list string :=
  match s with
  | [] => []
  | c :: s' =>
      match open with
      | None =>
          if Ascii.eqb c "{" then brace_spans_from (Some [c]) s'
          else brace_spans_from None s'
      | Some acc =>
          if Ascii.eqb c "}"
          then string_of_list_ascii (rev (c :: acc)) :: brace_spans_from None s'
          else brace_spans_from (Some (c :: acc)) s'
      end
  end.

Definition brace_spans (s : string) : list string := brace_spans_from None (chars s).

(** A consumer that replaces every [{...}] span of [s] by [f] of it. *)
Fixpoint substitute_from (f : string → string) (open : option (list ascii))
    (s : list ascii) : string :=
  match s with
  | [] =>
      match open with
      | None => EmptyString
      | Some acc => string_of_list_ascii (rev acc)
      end
  | c :: s' =>
      match open with
      | None =>
          if Ascii.eqb c "{" then substitute_from f (Some [c]) s'
          else String c (substitute_from f None s')
      | Some acc =>
          if Ascii.eqb c "}"
          then f (string_of_list_ascii (rev (c :: acc))) +:+ substitute_from f None s'
          else substitute_from f (Some (c :: acc)) s'
      end
  end.

Definition substitute_all (f : string → string) (s : string) : string :=
  substitute_from f None (chars s).

(** A consumer that replaces only the spans listed in [tokens]. *)
Definition substitute_only (tokens : list string) (f : string → string) (s : string)
  : string :=
  substitute_all (λ span, if bool_decide (span ∈ tokens) then f span else span) s.

(** The workbook a run leaves at the output path when the write goes
    through. *)
Definition saved_book (W : World) : Workbook :=
  {| _sheets := template_sheets; _active_sheet_index := 0;
     created := time_at_start W; modified := time_at_save W |}.

(** Two worlds in which the file can be written, at different times, one
    in which it cannot, and one in which it can while standard output is
    a full device. *)
Definition world_writable : World :=
  {| time_at_start := 1000; time_at_save := 1001; write_file := λ _, None;
     standard_output := Accepts; standard_error := Accepts |}.
Definition world_writable_later : World :=
  {| time_at_start := 5000; time_at_save := 5003; write_file := λ _, None;
     standard_output := Accepts; standard_error := Accepts |}.
Definition world_read_only : World :=
  {| time_at_start := 1000; time_at_save := 1001;
     write_file := λ _, Some "[Errno 13] Permission denied";
     standard_output := Accepts; standard_error := Accepts |}.
Definition world_stdout_full : World :=
  {| time_at_start := 1000; time_at_save := 1001; write_file := λ _, None;
     standard_output := FlushFails "[Errno 28] No space left on device";
     standard_error := Accepts |}.

(** A default-settings row against what is said of it, with the
    containment test of the script language in place of [occurs_in]. *)
Definition setting_row_ok (row : list value) (said : string * Spec.expected) : Prop :=
  match row with
  | [PyStr k; PyStr v] =>
      k = said.1 ∧
      match said.2 with
      | Spec.Exactly v' => v = v'
      | Spec.Containing token => contains token v = true
      | Spec.Unstated => True
      end
  | _ => False
  end.

(** A prompt row against its name and required tokens, likewise. *)
Definition prompt_row_ok (row : list value) (said : string * list string) : Prop :=
  match row with
  | [PyStr n; PyStr t] => n = said.1 ∧ Forall (λ token, contains token t = true) said.2
  | _ => False
  end.

(** Row [r] of a settings sheet: a key cell and a value cell that holds a
    string, the empty one when the key is a blank setting. *)
Definition setting_value_is_str (ws : Worksheet) (r : Z) : Prop :=
  match _cells ws !! (r, 1), _cells ws !! (r, 2) with
  | Some ck, Some cv =>
      match _value ck, _value cv with
      | PyStr k, PyStr v =>
          data_type cv = "s" ∧ (k ∈ Spec.blank_settings → v = EmptyString)
      | _, _ => False
      end
  | _, _ => False
  end.

(** A consumer's replacement that ignores what it replaces. *)
Definition constant_answer : string → string := λ _, "Maria: hello".

#[global] Instance setting_row_ok_dec row said : Decision (setting_row_ok row said).
Proof. unfold setting_row_ok. repeat case_match; apply _. Defined.

#[global] Instance prompt_row_ok_dec row said : Decision (prompt_row_ok row said).
Proof. unfold prompt_row_ok. repeat case_match; apply _. Defined.

#[global] Instance setting_value_is_str_dec ws r : Decision (setting_value_is_str ws r).
Proof. unfold setting_value_is_str. repeat case_match; apply _. Defined.

(** The speaker-identification prompt around its two brace spans: the
    text before the example line's span, between the spans, and after the
    transcript placeholder. *)
Definition speaker_text_before : string :=
  String.substring 0 732 speaker_identification_text.
Definition speaker_text_between : string :=
  String.substring 818 22 speaker_identification_text.
Definition speaker_text_after : string :=
  String.substring 852 15 speaker_identification_text.

End Observe.

Import Observe.

(* ===================================================================== *)
(** * Effects of the script's statements, in closed form *)
(* ===================================================================== *)

Module Effect.

(** Replacing the sheet a worksheet variable denotes. *)

Definition put_sheet (ws : sheet_ref) (sheet : Worksheet) (wb : Workbook) : Workbook :=
  with_sheets (<[ws := sheet]> (_sheets wb)) wb.

(** What [ws.cell(row, column)] leaves: the cell, made empty if absent,
    and the row counter raised to its row when it was made. *)
Definition ensure_cell (row column : Z) (s : Worksheet) : Worksheet :=
  match _cells s !! (row, column) with
  | Some _ => s
  | None =>
      with_current_row (Z.max row (_current_row s))
        (with_cells (<[(row, column) := EMPTY_CELL]> (_cells s)) s)
  end.

(** The pane [ws.freeze_panes = A2] sets. *)
Definition FROZEN_A2 : Pane :=
  {| topLeftCell := "A2"; xSplit := None; ySplit := Some 1;
     activePane := "bottomLeft"; state := "frozen" |}.

Section Styles.

Variables (header_font : Font) (header_fill : PatternFill)
          (header_align : Alignment) (thin_border : Border).

(** The four assignments of the loop body of [style_header], on one
    cell. *)
Definition style_cell (c : Cell) : Cell :=
  with_border thin_border
    (with_alignment header_align (with_fill header_fill (with_font header_font c))).

(** One turn of the loop: the cell of row 1 in column [col], made if
    absent, is styled. *)
Definition style_column (s : Worksheet) (col : Z) : Worksheet :=
  with_cells (alter style_cell (1, col) (_cells (ensure_cell 1 col s)))
             (ensure_cell 1 col s).

Definition style_columns (cols : list Z) (s : Worksheet) : Worksheet :=
  fold_left style_column cols s.

(** The body of the [for col in range(1, num_cols + 1)] loop of
    [style_header]. *)
Definition header_cell_loop (ws : sheet_ref) (col : Z) : M Workbook unit :=
  cell ← on_sheet ws (cell 1 col);
  _ ← on_sheet ws (set_cell (with_font header_font) cell);
  _ ← on_sheet ws (set_cell (with_fill header_fill) cell);
  _ ← on_sheet ws (set_cell (with_alignment header_align) cell);
  on_sheet ws (set_cell (with_border thin_border) cell).

(** The sheet once [style_header] is through, [letter] being the name of
    column [n]. *)
Definition styled_header (n : Z) (letter : string) (s : Worksheet) : Worksheet :=
  with_auto_filter_ref (Some (cat ["A1:"; letter; "1"]))
    (with_pane (Some FROZEN_A2) (style_columns (range 1 (n + 1)) s)).

End Styles.

(** The cells of a row written from column [start] on. *)
Definition place_cells (row start : Z) (cells : list Cell) (s : Worksheet) : Worksheet :=
  fold_left (λ s '(col, c), with_cells (<[(row, col) := c]> (_cells s)) s)
            (enumerate cells start) s.

(** What [ws.append] leaves when the cells made of the values are
    [cells]. *)
Definition appended (cells : list Cell) (s : Worksheet) : Worksheet :=
  with_current_row (_current_row s + 1) (place_cells (_current_row s + 1) 1 cells s).

(** What appending rows one after the other leaves. *)
Definition appended_rows (cellss : list (list Cell)) (s : Worksheet) : Worksheet :=
  fold_left (λ s cells, appended cells s) cellss s.

(** The cells [ws.append] makes of the values of a row. *)
Definition cells_of (values : list value) (cells : list Cell) : Prop :=
  Forall2 (λ v c, new_Cell v = Ok c) values cells.

(** The unstyled cell that holds the string [t]. *)
Definition str_cell (t : string) : Cell :=
  {| _value := PyStr t; data_type := "s"; font := DEFAULT_FONT;
     fill := DEFAULT_EMPTY_FILL; alignment := DEFAULT_ALIGNMENT;
     border := DEFAULT_BORDER |}.

(** The largest index whose column name has at most [k] letters. *)
Fixpoint name_bound (k : nat) : Z :=
  match k with
  | O => 0
  | S k' => 26 * (name_bound k' + 1)
  end.

(** The index a column name stands for: its letters as base-26 digits
    A = 1, ..., Z = 26. *)
Definition name_value (letters : list ascii) : Z :=
  fold_left (λ acc c, 26 * acc + (ord c - 64)) letters 0.

(** What the widths loop leaves: the column of index [start], [start + 1],
    ... gets the next width. *)
Definition set_widths (start : Z) (widths : list Z) (s : Worksheet) : Worksheet :=
  fold_left (λ s '(i, w),
               match get_column_letter i with
               | Ok letter =>
                   with_column_dimensions (<[letter := w]> (column_dimensions s)) s
               | Raise _ => s
               end)
            (enumerate widths start) s.

(** The alignment the wrap loop gives a prompt-text cell. *)
Definition WRAP_TOP : Alignment :=
  {| horizontal := None; vertical := Some "top"; wrap_text := Some true |}.

(** What the wrap loop does in row [r]: the cell of column B, made if
    absent, gets the alignment. *)
Definition wrap_row (s : Worksheet) (r : Z) : Worksheet :=
  with_cells (alter (with_alignment WRAP_TOP) (r, 2) (_cells (ensure_cell r 2 s)))
             (ensure_cell r 2 s).

Definition wrap_rows (rows : list Z) (s : Worksheet) : Worksheet :=
  fold_left wrap_row rows s.

(** A column name: one to three capital letters. *)
Definition is_column_name (letter : string) : Prop :=
  (1 ≤ String.length letter ≤ 3)%nat ∧ Forall (λ c, is_upper c = true) (chars letter).

(** A title the workbook accepts as it is: not empty, without a character
    a title may not contain, and equal to no sheet name up to case.  The
    title and the sheet names are ASCII strings, so that [lower] is the
    case folding the library applies to them. *)
Definition fresh_title (wb : Workbook) (name : string) : Prop :=
  name ≠ EmptyString ∧
  any_char is_invalid_title_char name = false ∧
  is_ascii name = true ∧
  forallb is_ascii (sheetnames wb) = true ∧
  existsb (λ n, String.eqb (lower n) (lower name)) (sheetnames wb) = false.

(** The sheet [create_sheet] makes. *)
Definition new_sheet (name : string) : Worksheet :=
  {| title := name; _cells := ∅; _current_row := 0; pane := None;
     auto_filter_ref := None; column_dimensions := ∅ |}.

(** Sample sheets and a workbook holding one sheet: a sheet with no cell,
    a sheet with a header row of two cells, a sheet of three rows of two
    cells. *)
Definition blank_sheet : Worksheet :=
  {| title := "Sheet"; _cells := ∅; _current_row := 0; pane := None;
     auto_filter_ref := None; column_dimensions := ∅ |}.
Definition sample_cells : list Cell := [str_cell "name"; str_cell "email"].
Definition header_sheet : Worksheet := appended sample_cells blank_sheet.
Definition three_row_sheet : Worksheet :=
  appended_rows [sample_cells; sample_cells; sample_cells] blank_sheet.
Definition book_of (s : Worksheet) : Workbook :=
  {| _sheets := [s]; _active_sheet_index := 0; created := 0; modified := 0 |}.

(** A workbook of two sheets, the second one active: a header sheet, and
    a sheet of three rows under another title. *)
Definition data_sheet : Worksheet := with_title "Data" three_row_sheet.
Definition two_sheet_book : Workbook :=
  {| _sheets := [header_sheet; data_sheet]; _active_sheet_index := 1;
     created := 10; modified := 20 |}.

End Effect.
Import Effect.

(* ===================================================================== *)
(** * Facts about the language and the library *)
(* ===================================================================== *)

Section StringFacts.

Lemma prefix_split (p s : string) :
  String.prefix p s = true → ∃ after, s = p +:+ after.
Proof.
  revert s. induction p as [|c p IH]; intros s H.
  - by exists s.
  - destruct s as [|c' s]; simpl in H; [done|].
    destruct (Ascii.ascii_dec c c') as [->|]; [|done].
    destruct (IH s H) as [after ->]. by exists after.
Qed.

Lemma prefix_append (p after : string) : String.prefix p (p +:+ after) = true.
Proof.
  induction p as [|c p IH]; simpl.
  - by destruct after.
  - by destruct (Ascii.ascii_dec c c).
Qed.

(** The containment test finds exactly the occurrences. *)
Lemma contains_occurs (token s : string) :
  contains token s = true ↔ Spec.occurs_in token s.
Proof.
  split.
  - induction s as [|c s IH]; cbn [contains]; intros H.
    + rewrite orb_false_r in H. destruct (prefix_split _ _ H) as [after ->].
      by exists EmptyString, after.
    + apply orb_true_iff in H as [H|H].
      * destruct (prefix_split _ _ H) as [after Heq].
        exists EmptyString, after. by rewrite Heq.
      * destruct (IH H) as (before & after & ->).
        by exists (String c before), after.
  - intros (before & after & ->).
    induction before as [|c before IH].
    + change (EmptyString +:+ token +:+ after) with (token +:+ after).
      destruct (token +:+ after) eqn:E; cbn [contains];
        rewrite <- E, prefix_append; done.
    + change (String c before +:+ token +:+ after)
        with (String c (before +:+ token +:+ after)).
      cbn [contains]. rewrite IH. apply orb_true_r.
Qed.

Lemma chars_append (a b : string) : chars (a +:+ b) = chars a ++ chars b.
Proof. induction a as [|c a IH]; simpl; [done|]. unfold chars in *. simpl. by rewrite IH. Qed.

Lemma chars_inj (a b : string) : chars a = chars b → a = b.
Proof.
  intros H. rewrite <- (string_of_list_ascii_of_string a),
    <- (string_of_list_ascii_of_string b). unfold chars in H. by rewrite H.
Qed.

Lemma append_cancel_l (p a b : string) : p +:+ a = p +:+ b → a = b.
Proof. induction p as [|c p IH]; simpl; [done|]. intros [= H]. auto. Qed.

Lemma append_cancel_r (a b t : string) : a +:+ t = b +:+ t → a = b.
Proof.
  intros H. apply chars_inj. apply (f_equal chars) in H.
  rewrite !chars_append in H. by apply app_inv_tail in H.
Qed.

(** A string that is short enough is not cut. *)
Lemma slice_to_all (n : N) (s : string) : len s ≤ Z.of_N n → slice_to n s = s.
Proof.
  revert n. induction s as [|c s IH]; intros n H; simpl in *; [done|].
  destruct (is_continuation c).
  - rewrite IH; [done|lia].
  - assert (0 ≤ len s) by (clear; induction s as [|c' s IHs]; simpl;
      [lia | destruct (is_continuation c'); lia]).
    destruct (N.eqb_spec n 0) as [->|Hn]; [lia|].
    rewrite IH; [done|lia].
Qed.

(** [check_string] returns a clean string of legal length unchanged. *)
Lemma check_string_clean (s : string) :
  len s ≤ 32767 → any_char is_illegal_character s = false → check_string s = Ok s.
Proof.
  intros Hlen Hclean. unfold check_string.
  rewrite slice_to_all by (simpl; lia). by rewrite Hclean.
Qed.

End StringFacts.

Section LibraryFacts.

(** The loop of [get_column_letter] ends by itself: once the counter
    bounds the index, a larger counter changes nothing. *)
Lemma column_letter_loop_ends (fuel extra : nat) (col_idx : Z) (letters : list ascii) :
  col_idx < 2 ^ Z.of_nat fuel →
  _get_column_letter_loop (fuel + extra) col_idx letters =
  _get_column_letter_loop fuel col_idx letters.
Proof.
  revert col_idx letters.
  induction fuel as [|fuel IH]; intros col_idx letters Hlt.
  - simpl in Hlt. destruct extra as [|extra]; simpl; [done|].
    destruct (Z.ltb_spec 0 col_idx); [lia|done].
  - rewrite Nat2Z.inj_succ, Z.pow_succ_r in Hlt by lia.
    simpl. destruct (Z.ltb_spec 0 col_idx) as [Hpos|]; [|done].
    assert (col_idx / 26 < 2 ^ Z.of_nat fuel).
    { apply Z.div_lt_upper_bound; lia. }
    destruct (col_idx mod 26 =? 0); apply IH; lia.
Qed.

(** The counter [get_column_letter] starts the loop with is enough. *)
Lemma get_column_letter_counter (extra : nat) (col_idx : Z) :
  1 ≤ col_idx →
  _get_column_letter_loop (S (Z.to_nat (Z.log2 col_idx)) + extra) col_idx [] =
  _get_column_letter_loop (S (Z.to_nat (Z.log2 col_idx))) col_idx [].
Proof.
  intros H. apply column_letter_loop_ends.
  rewrite Nat2Z.inj_succ, Z2Nat.id by apply Z.log2_nonneg.
  apply Z.log2_spec. lia.
Qed.

(** A column index has a letter exactly in the range A..ZZZ. *)
Lemma get_column_letter_defined (i : Z) :
  (∃ letter, get_column_letter i = Ok letter) ↔ 1 ≤ i ≤ 18278.
Proof.
  unfold get_column_letter.
  destruct (Z.leb_spec 1 i), (Z.leb_spec i 18278); simpl; split;
    try lia; try (intros [? [=]]); eauto.
Qed.

(** The name of a column leads back to its index, for the columns with a
    name of one or two letters (A to ZZ). *)
Lemma column_letter_round_trip (i : Z) :
  1 ≤ i ≤ 702 → get_column_letter i ≫= _COL_STRING_CACHE = Ok i.
Proof.
  intros H.
  assert (Hall : Forall (λ i, get_column_letter i ≫= _COL_STRING_CACHE = Ok i)
                        (seqZ 1 702)).
  { compute_done. }
  rewrite Forall_forall in Hall. apply Hall, elem_of_seqZ. lia.
Qed.

(** A statement run to its end on each element is the statement run on
    the concatenation. *)
Lemma for_each_app {S A} (xs ys : list A) (body : A → M S unit) (s : S) :
  for_each (xs ++ ys) body s =
  (_ ← for_each xs body; for_each ys body) s.
Proof.
  revert s. induction xs as [|x xs IH]; intros s; simpl.
  - done.
  - unfold mbind, M_bind in *. destruct (body x s) as [[[]|e] s']; [apply IH|done].
Qed.

End LibraryFacts.

(* ===================================================================== *)
(** * What a run does *)
(* ===================================================================== *)

Section Run.

Variable W : World.

(** The statements before the save run to their end in every world, and
    leave the same sheets. *)
Lemma construction_run :
  construction W initial =
  (Ok tt, {| wb := Some {| _sheets := template_sheets; _active_sheet_index := 0;
                           created := time_at_start W;
                           modified := time_at_start W |};
             stdout := []; files := ∅ |}).
Proof. vm_compute. reflexivity. Qed.

(** The whole run, by what the operating system answers to the write
    and by how standard output takes the confirmation line. *)
Lemma python3_run :
  python3 W =
  match write_file W output_path with
  | Some msg =>
      (Raise (OSError msg),
       {| wb := Some {| _sheets := template_sheets; _active_sheet_index := 0;
                        created := time_at_start W;
                        modified := time_at_start W |};
          stdout := []; files := ∅ |})
  | None =>
      match standard_output W with
      | Accepts | FlushFails _ =>
          (Ok tt, {| wb := Some (saved_book W); stdout := [Spec.confirmation];
                     files := {[ output_path := saved_book W ]} |})
      | Absent =>
          (Ok tt, {| wb := Some (saved_book W); stdout := [];
                     files := {[ output_path := saved_book W ]} |})
      | WriteFails msg =>
          (Raise (OSError msg),
           {| wb := Some (saved_book W); stdout := [];
              files := {[ output_path := saved_book W ]} |})
      end
  end.
Proof.
  unfold python3, main.
  unfold mbind at 1, M_bind at 1. rewrite construction_run.
  unfold mbind, M_bind, save, print. cbn [wb].
  destruct (write_file W output_path) as [msg|]; [reflexivity|].
  destruct (standard_output W); reflexivity.
Qed.

Lemma generated_writable :
  write_file W output_path = None → generated W = Some (saved_book W).
Proof.
  intros Hw. unfold generated. rewrite python3_run, Hw.
  destruct (standard_output W); cbn [snd files]; apply lookup_singleton_eq.
Qed.

Lemma generated_refused (msg : string) :
  write_file W output_path = Some msg → generated W = None.
Proof.
  intros Hw. unfold generated. rewrite python3_run, Hw. cbn [snd files].
  apply lookup_empty.
Qed.

End Run.

(** The style objects of the script are the header style profile. *)
Lemma style_constructors :
  new_Font (Some "Arial") (Some 11) (Some true) (Some "FFFFFF") = Ok header_font
  ∧ new_PatternFill "4285F4" "4285F4" "solid" = Ok header_fill
  ∧ new_Alignment (Some "center") (Some "center") (Some true) = Ok header_align
  ∧ new_Side "thin" "CCCCCC" = Ok thin_side.
Proof. repeat split; reflexivity. Qed.

(* ===================================================================== *)
(** * The properties of the specification *)
(* ===================================================================== *)

(** C1.  In the workbook written by a run, the sheets are those of the
    header table of section 6, in its order, and row 1 of each sheet holds
    the headers listed for it, value for value. *)
Theorem header_rows_match_schema (W : World) :
  write_file W output_path = None →
  ∃ book, generated W = Some book ∧
    Forall2 (λ ws entry, title ws = entry.1 ∧ row_values ws 1 = PyStr <$> entry.2)
            (_sheets book) Spec.header_schema.
Proof.
  intros Hw. exists (saved_book W). split; [by apply generated_writable|].
  cbn [_sheets saved_book]. compute_done.
Qed.

Lemma header_rows_match_schema_witness :
  write_file world_writable output_path = None ∧
  ∃ book, generated world_writable = Some book ∧
    Forall2 (λ ws entry, title ws = entry.1 ∧ row_values ws 1 = PyStr <$> entry.2)
            (_sheets book) Spec.header_schema.
Proof.
  split; [reflexivity|]. apply (header_rows_match_schema world_writable). reflexivity.
Defined.

(** C2.  The workbook written by a run has exactly eight sheets, named
    Settings, Discussions, Students, Transcripts, SpeakerMap,
    StudentReports, Prompts, Courses in this order, and each of these names
    is the title of exactly one sheet. *)
Theorem sheet_names_fixed_and_unique (W : World) :
  write_file W output_path = None →
  ∃ book, generated W = Some book ∧
    length (_sheets book) = 8%nat ∧
    sheetnames book = Spec.sheet_names ∧
    NoDup (sheetnames book) ∧
    ∀ name, name ∈ Spec.sheet_names →
      length (filter (λ ws, title ws = name) (_sheets book)) = 1%nat.
Proof.
  intros Hw. exists (saved_book W). split; [by apply generated_writable|].
  cbn [_sheets saved_book sheetnames].
  split; [vm_compute; reflexivity|]. split; [vm_compute; reflexivity|]. split.
  - compute_done.
  - apply Forall_forall. compute_done.
Qed.

Lemma sheet_names_fixed_and_unique_witness :
  write_file world_writable output_path = None ∧
  ∃ book, generated world_writable = Some book ∧
    length (_sheets book) = 8%nat ∧
    sheetnames book = Spec.sheet_names ∧
    NoDup (sheetnames book) ∧
    ∀ name, name ∈ Spec.sheet_names →
      length (filter (λ ws, title ws = name) (_sheets book)) = 1%nat.
Proof.
  split; [reflexivity|]. apply (sheet_names_fixed_and_unique world_writable). reflexivity.
Defined.

(** A decidable property of the sheet of a given name is settled by
    looking the sheet up and deciding the property on it. *)
(** Where [enumerate] puts the elements of a list. *)
Lemma enumerate_lookup {A} (xs : list A) (start : Z) (i : nat) (x : A) :
  xs !! i = Some x → (start + Z.of_nat i, x) ∈ enumerate xs start.
Proof.
  revert start i. induction xs as [|y xs IH]; intros start i Hi; [done|].
  destruct i as [|i]; cbn [enumerate].
  - injection Hi as ->. rewrite Z.add_0_r. apply list_elem_of_here.
  - apply list_elem_of_further.
    replace (start + Z.of_nat (S i)) with (start + 1 + Z.of_nat i) by lia.
    by apply IH.
Qed.

(** Rows that sit in a sheet, read by coordinate. *)
Lemma rows_at_lookup (ws : Worksheet) (first : Z) (rows : list (list value)) :
  rows_at ws first rows →
  ∀ i j row v, rows !! i = Some row → row !! j = Some v →
    value_at ws (first + Z.of_nat i) (1 + Z.of_nat j) = Some v.
Proof.
  intros Hat i j row v Hi Hj. unfold rows_at in Hat.
  rewrite Forall_forall in Hat.
  specialize (Hat _ (enumerate_lookup rows first i row Hi)). cbn [fst snd] in Hat.
  rewrite Forall_forall in Hat.
  exact (Hat _ (enumerate_lookup row 1 j v Hj)).
Qed.

Lemma sheet_named_decide (book : Workbook) (name : string)
    (P : Worksheet → Prop) `{!∀ ws, Decision (P ws)} :
  (λ ws, bool_decide (P ws)) <$> sheet_named book name = Some true →
  ∃ ws, sheet_named book name = Some ws ∧ P ws.
Proof.
  destruct (sheet_named book name) as [ws|]; simpl; [|done].
  intros [= Hdec]. exists ws. split; [done|]. exact (bool_decide_eq_true_1 _ Hdec).
Qed.

Lemma setting_value_is_str_cells (ws : Worksheet) (r : Z) :
  setting_value_is_str ws r →
  ∃ ck cv k v, _cells ws !! (r, 1) = Some ck ∧ _cells ws !! (r, 2) = Some cv ∧
    _value ck = PyStr k ∧ _value cv = PyStr v ∧ data_type cv = "s" ∧
    (k ∈ Spec.blank_settings → v = EmptyString).
Proof.
  unfold setting_value_is_str.
  destruct (_cells ws !! (r, 1)) as [ck|]; [|done].
  destruct (_cells ws !! (r, 2)) as [cv|]; [|done].
  destruct (_value ck) as [| k | | |] eqn:Hk; try done.
  destruct (_value cv) as [| v | | |] eqn:Hv; try done.
  intros [Hdt Hblank]. by exists ck, cv, k, v.
Qed.

Lemma setting_row_ok_meets (row : list value) (said : string * Spec.expected) :
  setting_row_ok row said →
  ∃ v, row = [PyStr said.1; PyStr v] ∧ Spec.meets said.2 v.
Proof.
  unfold setting_row_ok. intros H.
  destruct row as [|[| k | | |] [|[| v | | |] [|]]]; try done.
  destruct H as [-> H]. exists v. split; [done|].
  destruct said.2; simpl; [done| by apply contains_occurs |done].
Qed.


(** C3.  In the workbook written by a run, the Settings sheet has rows 2
    to 13 and no more; they are the twelve default pairs of the script, in
    order: the keys are those listed, the values stated for a key are its
    value, the value of email_subject_template contains [{date}], and row
    2 is [mode, group].  This holds by coordinate: cell A2 is [mode] and
    cell B2 is [group]; the j-th value of the i-th default row of the
    script is the value of the cell in row 2 + i, column 1 + j; for the
    i-th default setting listed, the cell of column A in row 2 + i holds
    its key and the cell of column B a string that meets what is stated
    of its value; and the sheet holds no cell outside rows 1 to 13 and
    columns A and B. *)
Theorem settings_default_rows (W : World) :
  write_file W output_path = None →
  ∃ book ws, generated W = Some book ∧ sheet_named book "Settings" = Some ws ∧
    row_values ws 2 = [PyStr "mode"; PyStr "group"] ∧
    max_row ws = 13 ∧
    rows_from ws 2 12 = settings_defaults ∧
    Forall2 (λ row said, ∃ v, row = [PyStr said.1; PyStr v] ∧ Spec.meets said.2 v)
            (rows_from ws 2 12) Spec.default_settings ∧
    value_at ws 2 1 = Some (PyStr "mode") ∧
    value_at ws 2 2 = Some (PyStr "group") ∧
    (∀ i j row v, settings_defaults !! i = Some row ∧ row !! j = Some v →
       value_at ws (2 + Z.of_nat i) (1 + Z.of_nat j) = Some v) ∧
    (∀ i said, Spec.default_settings !! i = Some said →
       value_at ws (2 + Z.of_nat i) 1 = Some (PyStr said.1) ∧
       ∃ v, value_at ws (2 + Z.of_nat i) 2 = Some (PyStr v) ∧ Spec.meets said.2 v) ∧
    (∀ r c cell, _cells ws !! (r, c) = Some cell → 1 ≤ r ≤ 13 ∧ 1 ≤ c ≤ 2).
Proof.
  intros Hw. exists (saved_book W).
  destruct (sheet_named_decide (saved_book W) "Settings" (λ ws,
      row_values ws 2 = [PyStr "mode"; PyStr "group"] ∧ max_row ws = 13 ∧
      rows_from ws 2 12 = settings_defaults ∧
      Forall2 setting_row_ok (rows_from ws 2 12) Spec.default_settings ∧
      rows_at ws 2 settings_defaults ∧ within ws 13 2))
    as (ws & Hws & Hrow2 & Hmax & Hrows & Hsaid & Hat & Hin);
    [vm_compute; reflexivity|].
  assert (Hcells : ∀ i j row v, settings_defaults !! i = Some row ∧ row !! j = Some v →
            value_at ws (2 + Z.of_nat i) (1 + Z.of_nat j) = Some v).
  { intros i j row v [Hi Hj]. exact (rows_at_lookup ws 2 _ Hat i j row v Hi Hj). }
  exists ws. split; [by apply generated_writable|].
  repeat (split; [assumption|]).
  split; [eapply Forall2_impl; [exact Hsaid|]; apply setting_row_ok_meets|].
  split; [exact (Hcells 0%nat 0%nat _ _ (conj eq_refl eq_refl))|].
  split; [exact (Hcells 0%nat 1%nat _ _ (conj eq_refl eq_refl))|].
  split; [exact Hcells|]. split.
  - intros i said Hi. rewrite Hrows in Hsaid.
    destruct (Forall2_lookup_r _ _ _ _ _ Hsaid Hi) as (row & Hrow & Hok).
    apply setting_row_ok_meets in Hok as (v & -> & Hv).
    split; [exact (Hcells i 0%nat _ _ (conj Hrow eq_refl))|].
    exists v. split; [exact (Hcells i 1%nat _ _ (conj Hrow eq_refl))|exact Hv].
  - intros r c cell Hc. exact (map_Forall_lookup_1 _ _ _ _ Hin Hc).
Qed.

Lemma settings_default_rows_witness :
  write_file world_writable output_path = None ∧
  ∃ book ws, generated world_writable = Some book ∧
    sheet_named book "Settings" = Some ws ∧
    row_values ws 2 = [PyStr "mode"; PyStr "group"] ∧
    max_row ws = 13 ∧
    rows_from ws 2 12 = settings_defaults ∧
    Forall2 (λ row said, ∃ v, row = [PyStr said.1; PyStr v] ∧ Spec.meets said.2 v)
            (rows_from ws 2 12) Spec.default_settings ∧
    value_at ws 2 1 = Some (PyStr "mode") ∧
    value_at ws 2 2 = Some (PyStr "group") ∧
    (∀ i j row v, settings_defaults !! i = Some row ∧ row !! j = Some v →
       value_at ws (2 + Z.of_nat i) (1 + Z.of_nat j) = Some v) ∧
    (∀ i said, Spec.default_settings !! i = Some said →
       value_at ws (2 + Z.of_nat i) 1 = Some (PyStr said.1) ∧
       ∃ v, value_at ws (2 + Z.of_nat i) 2 = Some (PyStr v) ∧ Spec.meets said.2 v) ∧
    (∀ r c cell, _cells ws !! (r, c) = Some cell → 1 ≤ r ≤ 13 ∧ 1 ≤ c ≤ 2).
Proof.
  split; [reflexivity|]. apply (settings_default_rows world_writable). reflexivity.
Defined.



(** C5.  In the workbook written by a run, every row below the header of
    every sheet holds as many cells as the header row: the twelve Settings
    rows and the three Prompts rows hold 2 cells under 2 headers (as the
    rows of [settings_defaults] and [prompts] have 2 values each), and the
    other sheets have no row below the header. *)
Theorem default_rows_align_with_headers (W : World) :
  write_file W output_path = None →
  ∃ book, generated W = Some book ∧
    Forall (λ row, length row = 2%nat) settings_defaults ∧
    Forall (λ row, length row = 2%nat) prompts ∧
    ∀ ws, ws ∈ _sheets book →
      (∀ r, 2 ≤ r ≤ max_row ws →
         row_len ws r = row_len ws 1 ∧
         length (row_values ws r) = length (row_values ws 1)) ∧
      (title ws ∈ ["Settings"; "Prompts"] → row_len ws 1 = 2%nat) ∧
      ((title ws ∉ ["Settings"; "Prompts"]) → max_row ws = 1).
Proof.
  intros Hw. exists (saved_book W). split; [by apply generated_writable|].
  split; [compute_done|]. split; [compute_done|].
  cbn [_sheets saved_book].
  assert (Hall : Forall (λ ws,
      Forall (λ r, row_len ws r = row_len ws 1 ∧
                   length (row_values ws r) = length (row_values ws 1))
             (seqZ 2 (max_row ws - 1)) ∧
      (title ws ∈ ["Settings"; "Prompts"] → row_len ws 1 = 2%nat) ∧
      ((title ws ∉ ["Settings"; "Prompts"]) → max_row ws = 1)) template_sheets)
    by compute_done.
  intros ws Hin. rewrite Forall_forall in Hall.
  destruct (Hall ws Hin) as (Hrows & Hsp & Hother).
  split; [|done].
  intros r Hr. rewrite Forall_forall in Hrows. apply Hrows, elem_of_seqZ. lia.
Qed.

Lemma default_rows_align_with_headers_witness :
  write_file world_writable output_path = None ∧
  ∃ book, generated world_writable = Some book ∧
    Forall (λ row, length row = 2%nat) settings_defaults ∧
    Forall (λ row, length row = 2%nat) prompts ∧
    ∀ ws, ws ∈ _sheets book →
      (∀ r, 2 ≤ r ≤ max_row ws →
         row_len ws r = row_len ws 1 ∧
         length (row_values ws r) = length (row_values ws 1)) ∧
      (title ws ∈ ["Settings"; "Prompts"] → row_len ws 1 = 2%nat) ∧
      ((title ws ∉ ["Settings"; "Prompts"]) → max_row ws = 1).
Proof.
  split; [reflexivity|].
  apply (default_rows_align_with_headers world_writable). reflexivity.
Defined.

(** C6.  In the workbook written by a run, each of the eight sheets is
    as adding it requires: the header list is row 1, its i-th value in
    the i-th column; a cell carries the header style profile exactly when
    it is one of the header cells of row 1; row 1 is frozen (pane at A2);
    the auto-filter reference is A1 to the last header column of row 1;
    the widths list is as long as the header list and the i-th column has
    the i-th width, no other column having one; the default rows follow
    in order from row 2, the j-th value of the i-th of them in row 1 + i,
    column j; and the sheet holds no cell below them or to the right of
    the header columns.  The header style profile is what the style
    constructors of the script return. *)
Theorem every_sheet_added_as_specified (W : World) :
  write_file W output_path = None →
  ∃ book, generated W = Some book ∧
    Forall2 added sheet_definitions (_sheets book) ∧
    new_Font (Some "Arial") (Some 11) (Some true) (Some "FFFFFF") = Ok header_font ∧
    new_PatternFill "4285F4" "4285F4" "solid" = Ok header_fill ∧
    new_Alignment (Some "center") (Some "center") (Some true) = Ok header_align ∧
    new_Side "thin" "CCCCCC" = Ok thin_side.
Proof.
  intros Hw. exists (saved_book W). split; [by apply generated_writable|].
  split; [|exact style_constructors].
  cbn [_sheets saved_book]. compute_done.
Qed.

Lemma every_sheet_added_as_specified_witness :
  write_file world_writable output_path = None ∧
  ∃ book, generated world_writable = Some book ∧
    Forall2 added sheet_definitions (_sheets book) ∧
    new_Font (Some "Arial") (Some 11) (Some true) (Some "FFFFFF") = Ok header_font ∧
    new_PatternFill "4285F4" "4285F4" "solid" = Ok header_fill ∧
    new_Alignment (Some "center") (Some "center") (Some true) = Ok header_align ∧
    new_Side "thin" "CCCCCC" = Ok thin_side.
Proof.
  split; [reflexivity|].
  apply (every_sheet_added_as_specified world_writable). reflexivity.
Defined.

(** C7.  Two runs that can both write the output file, in whatever
    worlds, leave workbooks with the same sheet names in the same order
    and the same value in every cell of every sheet. *)
Theorem cell_content_deterministic (W1 W2 : World) :
  write_file W1 output_path = None →
  write_file W2 output_path = None →
  ∃ b1 b2, generated W1 = Some b1 ∧ generated W2 = Some b2 ∧
    sheetnames b1 = sheetnames b2 ∧
    cell_values <$> _sheets b1 = cell_values <$> _sheets b2.
Proof.
  intros H1 H2. exists (saved_book W1), (saved_book W2).
  rewrite !generated_writable by assumption.
  unfold sheetnames, saved_book. cbn [_sheets].
  repeat split.
Qed.

Lemma cell_content_deterministic_witness :
  write_file world_writable output_path = None ∧
  write_file world_writable_later output_path = None ∧
  ∃ b1 b2, generated world_writable = Some b1 ∧
    generated world_writable_later = Some b2 ∧
    sheetnames b1 = sheetnames b2 ∧
    cell_values <$> _sheets b1 = cell_values <$> _sheets b2.
Proof.
  split; [reflexivity|]. split; [reflexivity|].
  apply (cell_content_deterministic world_writable world_writable_later); reflexivity.
Defined.

(** The two workbooks of such runs need not be equal: their timestamps
    are the clock's. *)
Lemma timestamps_follow_the_clock :
  saved_book world_writable ≠ saved_book world_writable_later.
Proof. intros H. apply (f_equal created) in H. discriminate H. Qed.

(** C8 as stated does not hold: a refused write is not the only way a
    run fails.  In a world where the output file can be written and
    standard output is a full device, the statements run to their end
    and the workbook is written, yet the confirmation line never arrives
    and the exit status is 120, not 0. *)
Lemma writable_path_yet_nonzero_exit :
  write_file world_stdout_full output_path = None ∧
  (python3 world_stdout_full).1 = Ok tt ∧
  generated world_stdout_full = Some (saved_book world_stdout_full) ∧
  delivered world_stdout_full (python3 world_stdout_full).2 = [] ∧
  exit_status world_stdout_full (python3 world_stdout_full) = 120 ∧
  ¬ (∀ W : World, write_file W output_path = None → exit_status W (python3 W) = 0).
Proof.
  assert (Hrun := python3_run world_stdout_full).
  change (write_file world_stdout_full output_path) with (@None string) in Hrun.
  change (standard_output world_stdout_full)
    with (FlushFails "[Errno 28] No space left on device") in Hrun.
  cbn match in Hrun.
  assert (Hexit : exit_status world_stdout_full (python3 world_stdout_full) = 120)
    by (rewrite Hrun; reflexivity).
  split; [reflexivity|]. split; [by rewrite Hrun|].
  split; [by apply generated_writable|]. split; [reflexivity|].
  split; [exact Hexit|].
  intros Hall. specialize (Hall world_stdout_full eq_refl).
  rewrite Hexit in Hall. discriminate Hall.
Qed.

(** C8, amended.  Without the library the run ends at its first import
    with ModuleNotFoundError, nothing printed and no file written, and
    exit status 1, or 120 when the traceback cannot be flushed to
    standard error.  With it, in every world the statements before the
    save run to their end without raising, and what follows depends on
    the write and on standard output only.  When the operating system
    refuses the write, the run ends with that OSError uncaught, nothing
    handed to standard output and no workbook written; the exit status
    is 1, or 120 when the traceback cannot be flushed to standard
    error.  When the write goes through, the workbook
    is written, and: if standard output accepts text, the confirmation
    line arrives and the exit status is 0; if there is no standard
    output, nothing arrives and the exit status is 0; if standard output
    is buffered and cannot be written, the body still ends normally,
    nothing arrives and the exit status is 120; if standard output is
    written through and cannot be written, [print] raises OSError, which
    ends the run uncaught with exit status 1, or 120 when the traceback
    cannot be flushed to standard error. *)
Theorem run_fails_on_refused_write_or_output (W : World) :
  (script false W).1 = Raise (ModuleNotFoundError "No module named 'openpyxl'") ∧
  stdout (script false W).2 = [] ∧
  files (script false W).2 = ∅ ∧
  exit_status W (script false W) =
    match standard_error W with FlushFails _ => 120 | _ => 1 end ∧
  script true W = python3 W ∧
  (construction W initial).1 = Ok tt ∧
  match write_file W output_path with
  | Some msg =>
      (python3 W).1 = Raise (OSError msg) ∧
      stdout (python3 W).2 = [] ∧
      generated W = None ∧
      exit_status W (python3 W) =
        match standard_error W with FlushFails _ => 120 | _ => 1 end
  | None =>
      generated W = Some (saved_book W) ∧
      match standard_output W with
      | Accepts =>
          (python3 W).1 = Ok tt ∧
          delivered W (python3 W).2 = [Spec.confirmation] ∧
          exit_status W (python3 W) = 0
      | Absent =>
          (python3 W).1 = Ok tt ∧
          delivered W (python3 W).2 = [] ∧
          exit_status W (python3 W) = 0
      | FlushFails _ =>
          (python3 W).1 = Ok tt ∧
          delivered W (python3 W).2 = [] ∧
          exit_status W (python3 W) = 120
      | WriteFails msg =>
          (python3 W).1 = Raise (OSError msg) ∧
          delivered W (python3 W).2 = [] ∧
          exit_status W (python3 W) =
            match standard_error W with FlushFails _ => 120 | _ => 1 end
      end
  end.
Proof.
  repeat (split; [reflexivity|]).
  split.
  { unfold exit_status, stdout_flush_fails, stderr_flush_fails, script.
    cbn [fst snd stdout initial]. by destruct (standard_output W), (standard_error W). }
  split; [reflexivity|].
  split; [by rewrite construction_run|].
  destruct (write_file W output_path) as [msg|] eqn:Hw.
  - rewrite (generated_refused W msg Hw), python3_run, Hw.
    unfold exit_status, stdout_flush_fails, stderr_flush_fails. cbn [fst snd stdout].
    repeat split. by destruct (standard_output W), (standard_error W).
  - rewrite (generated_writable W Hw), python3_run, Hw.
    split; [done|].
    unfold exit_status, stdout_flush_fails, stderr_flush_fails, delivered.
    destruct (standard_output W); cbn [fst snd stdout]; repeat split;
      by destruct (standard_error W).
Qed.

(** A consumer that substitutes every brace span of the
    speaker-identification prompt rewrites two spans: the example line and
    the transcript placeholder. *)
Lemma substitute_all_speaker_text (f : string → string) :
  substitute_all f speaker_identification_text =
  speaker_text_before +:+ (f Spec.json_example +:+
    (speaker_text_between +:+ (f "{transcript}" +:+ speaker_text_after))).
Proof. vm_compute. reflexivity. Qed.

(** C9.  The text of the first prompt, SPEAKER_IDENTIFICATION, has two
    brace-delimited spans: the JSON example line and [{transcript}].  The
    example line occurs in the text and is not a documented placeholder
    token, so a consumer that substitutes every brace span (and does not
    map the example line to itself) produces a text different from that of
    a consumer that substitutes the documented tokens only. *)
Theorem speaker_prompt_has_undocumented_braces (f : string → string) :
  f Spec.json_example ≠ Spec.json_example →
  prompts !! 0%nat =
    Some [PyStr "SPEAKER_IDENTIFICATION"; PyStr speaker_identification_text] ∧
  brace_spans speaker_identification_text = [Spec.json_example; "{transcript}"] ∧
  (Spec.json_example ∉ Spec.placeholder_tokens) ∧
  Spec.occurs_in Spec.json_example speaker_identification_text ∧
  substitute_all f speaker_identification_text ≠
    substitute_only Spec.placeholder_tokens f speaker_identification_text.
Proof.
  intros Hf.
  split; [reflexivity|]. split; [vm_compute; reflexivity|].
  split; [compute_done|]. split.
  - apply contains_occurs. vm_compute. reflexivity.
  - unfold substitute_only. rewrite !substitute_all_speaker_text.
    rewrite (bool_decide_eq_false_2 (Spec.json_example ∈ Spec.placeholder_tokens))
      by compute_done.
    intros Heq. apply append_cancel_l, append_cancel_r in Heq. done.
Qed.

Lemma speaker_prompt_has_undocumented_braces_witness :
  constant_answer Spec.json_example ≠ Spec.json_example ∧
  brace_spans speaker_identification_text = [Spec.json_example; "{transcript}"] ∧
  substitute_all constant_answer speaker_identification_text ≠
    substitute_only Spec.placeholder_tokens constant_answer speaker_identification_text.
Proof.
  assert (H : constant_answer Spec.json_example ≠ Spec.json_example)
    by (vm_compute; discriminate).
  split; [exact H|].
  destruct (speaker_prompt_has_undocumented_braces constant_answer H)
    as (_ & Hspans & _ & _ & Hdiff).
  split; [exact Hspans | exact Hdiff].
Defined.

(** C10.  In the workbook written by a run, every row 2 to 13 of the
    Settings sheet has a key cell and a value cell whose value is a string
    with data type [s]; the value is the empty string when the key is
    teacher_email, teacher_name, canvas_course_id or canvas_base_url, and
    each of these four keys has such a row. *)
Theorem blank_settings_are_empty_strings (W : World) :
  write_file W output_path = None →
  ∃ book ws, generated W = Some book ∧ sheet_named book "Settings" = Some ws ∧
    max_row ws = 13 ∧
    (∀ r, 2 ≤ r ≤ 13 →
       ∃ ck cv k v, _cells ws !! (r, 1) = Some ck ∧ _cells ws !! (r, 2) = Some cv ∧
         _value ck = PyStr k ∧ _value cv = PyStr v ∧ data_type cv = "s" ∧
         (k ∈ Spec.blank_settings → v = EmptyString)) ∧
    Forall (λ k, [PyStr k; PyStr EmptyString] ∈ rows_from ws 2 12) Spec.blank_settings.
Proof.
  intros Hw. exists (saved_book W).
  destruct (sheet_named_decide (saved_book W) "Settings" (λ ws,
      max_row ws = 13 ∧
      Forall (setting_value_is_str ws) (seqZ 2 12) ∧
      Forall (λ k, [PyStr k; PyStr EmptyString] ∈ rows_from ws 2 12)
             Spec.blank_settings))
    as (ws & Hws & Hmax & Hall & Hblank); [vm_compute; reflexivity|].
  exists ws. split; [by apply generated_writable|].
  repeat (split; [assumption|]). split; [|assumption].
  intros r Hr. apply setting_value_is_str_cells.
  rewrite Forall_forall in Hall. apply Hall, elem_of_seqZ. lia.
Qed.

Lemma blank_settings_are_empty_strings_witness :
  write_file world_writable output_path = None ∧
  ∃ book ws, generated world_writable = Some book ∧
    sheet_named book "Settings" = Some ws ∧
    max_row ws = 13 ∧
    (∀ r, 2 ≤ r ≤ 13 →
       ∃ ck cv k v, _cells ws !! (r, 1) = Some ck ∧ _cells ws !! (r, 2) = Some cv ∧
         _value ck = PyStr k ∧ _value cv = PyStr v ∧ data_type cv = "s" ∧
         (k ∈ Spec.blank_settings → v = EmptyString)) ∧
    Forall (λ k, [PyStr k; PyStr EmptyString] ∈ rows_from ws 2 12) Spec.blank_settings.
Proof.
  split; [reflexivity|].
  apply (blank_settings_are_empty_strings world_writable). reflexivity.
Defined.

(* ===================================================================== *)
(** * The function and the loops of the script, on any workbook *)
(* ===================================================================== *)

Section OnSheet.

Lemma with_sheets_with_sheets l l' wb : with_sheets l (with_sheets l' wb) = with_sheets l wb.
Proof. reflexivity. Qed.

Lemma put_sheet_put_sheet ws s s' wb :
  put_sheet ws s (put_sheet ws s' wb) = put_sheet ws s wb.
Proof. unfold put_sheet. cbn. by rewrite list_insert_insert_eq. Qed.

Lemma put_sheet_id ws s wb : _sheets wb !! ws = Some s → put_sheet ws s wb = wb.
Proof. intros H. unfold put_sheet. rewrite list_insert_id by done. by destruct wb. Qed.

Lemma on_sheet_put {A} ws s wb (m : M Worksheet A) :
  (ws < length (_sheets wb))%nat →
  on_sheet ws m (put_sheet ws s wb) = ((m s).1, put_sheet ws (m s).2 wb).
Proof.
  intros H. unfold on_sheet. cbn [put_sheet _sheets with_sheets].
  rewrite list_lookup_insert_eq by done.
  destruct (m s) as [r s']. cbn [fst snd]. f_equal.
  unfold put_sheet. cbn. by rewrite list_insert_insert_eq.
Qed.

Lemma cell_run row column s :
  1 ≤ row < 1048577 → 1 ≤ column →
  cell row column s = (Ok (row, column), ensure_cell row column s).
Proof.
  intros Hr Hc. unfold cell, ensure_cell.
  destruct (Z.ltb_spec row 1); [lia|]. destruct (Z.ltb_spec column 1); [lia|].
  destruct (Z.ltb_spec 0 row); [|lia]. destruct (Z.ltb_spec row 1048577); [|lia].
  cbn. unfold mbind, M_bind, get, put, mret, M_ret.
  destruct (_cells s !! (row, column)); reflexivity.
Qed.

Lemma alter_alter_same {A} (f g : A → A) (k : Z * Z) (m : gmap (Z * Z) A) :
  alter f k (alter g k m) = alter (f ∘ g) k m.
Proof.
  apply map_eq. intros j. destruct (decide (k = j)) as [->|Hne].
  - rewrite !lookup_alter_eq. by destruct (m !! j).
  - by rewrite !lookup_alter_ne.
Qed.

End OnSheet.

Section Append.

Lemma place_cells_run (row start : Z) values cells s :
  cells_of values cells →
  for_each (enumerate values start) (λ '(col_idx, content),
      cell ← lift (new_Cell content);
      modify (λ ws, with_cells (<[(row, col_idx) := cell]> (_cells ws)) ws)) s =
  (Ok tt, place_cells row start cells s).
Proof.
  intros H. revert start s.
  induction H as [|v c values cells Hv _ IH]; intros start s; [done|].
  cbn [enumerate for_each]. unfold mbind at 1, M_bind at 1.
  unfold mbind at 1, M_bind at 1, lift. rewrite Hv. cbn [modify].
  rewrite IH. reflexivity.
Qed.

Lemma append_run values cells s :
  cells_of values cells → append values s = (Ok tt, appended cells s).
Proof.
  intros H. unfold append, mbind, M_bind, get.
  fold (@mbind (M Worksheet) _).
  pose proof (place_cells_run (_current_row s + 1) 1 values cells s H) as Hrun.
  unfold mbind, M_bind in Hrun. rewrite Hrun. reflexivity.
Qed.

Lemma place_cells_lookup row start cells s k :
  _cells (place_cells row start cells s) !! k =
  if decide (k.1 = row ∧ start ≤ k.2 < start + Z.of_nat (length cells))
  then cells !! Z.to_nat (k.2 - start)
  else _cells s !! k.
Proof.
  revert start s. induction cells as [|c cells IH]; intros start s.
  - cbn. rewrite decide_False; [done|]. cbn. lia.
  - change (place_cells row start (c :: cells) s)
      with (place_cells row (start + 1) cells
              (with_cells (<[(row, start) := c]> (_cells s)) s)).
    rewrite IH. cbn [_cells with_cells length]. destruct k as [r col]. cbn [fst snd].
    destruct (decide (r = row ∧ start + 1 ≤ col < start + 1 + Z.of_nat (length cells)))
      as [[-> Hc]|Hn].
    + rewrite decide_True by lia.
      replace (Z.to_nat (col - start)) with (S (Z.to_nat (col - (start + 1)))) by lia.
      done.
    + destruct (decide ((r, col) = (row, start))) as [[= -> ->]|Hne].
      * rewrite decide_True by lia. rewrite lookup_insert_eq.
        by replace (Z.to_nat (start - start)) with 0%nat by lia.
      * rewrite lookup_insert_ne by done. rewrite decide_False; [done|].
        intros [-> Hc]. assert (col ≠ start) by congruence. lia.
Qed.

Lemma place_cells_fields row start cells s :
  title (place_cells row start cells s) = title s ∧
  _current_row (place_cells row start cells s) = _current_row s ∧
  pane (place_cells row start cells s) = pane s ∧
  auto_filter_ref (place_cells row start cells s) = auto_filter_ref s ∧
  column_dimensions (place_cells row start cells s) = column_dimensions s.
Proof.
  revert start s. induction cells as [|c cells IH]; intros start s; [done|].
  change (place_cells row start (c :: cells) s)
    with (place_cells row (start + 1) cells
            (with_cells (<[(row, start) := c]> (_cells s)) s)).
  by destruct (IH (start + 1) (with_cells (<[(row, start) := c]> (_cells s)) s))
    as (-> & -> & -> & -> & ->).
Qed.

Lemma appended_lookup cells s k :
  _cells (appended cells s) !! k =
  if decide (k.1 = _current_row s + 1 ∧ 1 ≤ k.2 ≤ Z.of_nat (length cells))
  then cells !! Z.to_nat (k.2 - 1)
  else _cells s !! k.
Proof.
  unfold appended. cbn [_cells with_current_row]. rewrite place_cells_lookup.
  destruct (decide _), (decide _); done || lia.
Qed.

Lemma appended_rows_spec cellss s :
  _current_row (appended_rows cellss s) = _current_row s + Z.of_nat (length cellss) ∧
  (∀ i j cells c, cellss !! i = Some cells → cells !! j = Some c →
     _cells (appended_rows cellss s) !! (_current_row s + 1 + Z.of_nat i, Z.of_nat j + 1)
     = Some c) ∧
  (∀ k, k.1 ≤ _current_row s → _cells (appended_rows cellss s) !! k = _cells s !! k) ∧
  title (appended_rows cellss s) = title s ∧
  column_dimensions (appended_rows cellss s) = column_dimensions s.
Proof.
  revert s. induction cellss as [|cells cellss IH]; intros s.
  - cbn. repeat split; [lia|done].
  - change (appended_rows (cells :: cellss) s)
      with (appended_rows cellss (appended cells s)).
    destruct (IH (appended cells s)) as (Hcur & Hput & Hframe & Ht & Hd).
    assert (_current_row (appended cells s) = _current_row s + 1) as Hc1 by done.
    rewrite Hc1 in *. split; [cbn [length]; lia|]. split; [|split].
    + intros [|i] j cs c Hcs Hj.
      * injection Hcs as <-. rewrite Hframe by (cbn; lia).
        rewrite appended_lookup. cbn [fst snd].
        apply lookup_lt_Some in Hj as Hlt.
        rewrite decide_True by lia.
        by replace (Z.to_nat (Z.of_nat j + 1 - 1)) with j by lia.
      * replace (_current_row s + 1 + Z.of_nat (S i))
          with (_current_row s + 1 + 1 + Z.of_nat i) by lia.
        by eapply Hput.
    + intros k Hk. rewrite Hframe by lia. rewrite appended_lookup.
      rewrite decide_False; [done|]. lia.
    + rewrite Ht, Hd. unfold appended. cbn.
      by destruct (place_cells_fields (_current_row s + 1) 1 cells s)
        as (-> & _ & _ & _ & ->).
Qed.

End Append.

Section ColumnNames.

Lemma is_upper_chr (z : Z) : 65 ≤ z ≤ 90 → is_upper (chr z) = true.
Proof.
  intros H.
  assert (Hall : Forall (λ z, is_upper (chr z) = true) (seqZ 65 26)) by compute_done.
  rewrite Forall_forall in Hall. apply Hall, elem_of_seqZ. lia.
Qed.

Lemma upper_char_facts (c : ascii) :
  is_upper c = true →
  upper_char c = c ∧ is_alpha c = true ∧ is_digit c = false ∧
  Ascii.eqb c "$" = false ∧ Ascii.eqb c ":" = false.
Proof.
  destruct c as [[] [] [] [] [] [] [] []]; vm_compute; intros H;
    try discriminate H; repeat split.
Qed.

Lemma ord_chr_upper (z : Z) : 65 ≤ z ≤ 90 → ord (chr z) = z.
Proof.
  intros H.
  assert (Hall : Forall (λ z, ord (chr z) = z) (seqZ 65 26)) by compute_done.
  rewrite Forall_forall in Hall. apply Hall, elem_of_seqZ. lia.
Qed.

Lemma name_value_snoc (letters : list ascii) (c : ascii) :
  name_value (letters ++ [c]) = 26 * name_value letters + (ord c - 64).
Proof. unfold name_value. by rewrite fold_left_app. Qed.

Lemma column_letter_loop_letters (k fuel : nat) (col_idx : Z) (letters : list ascii) :
  0 ≤ col_idx ≤ name_bound k → col_idx < 2 ^ Z.of_nat fuel →
  ∃ new, _get_column_letter_loop fuel col_idx letters = letters ++ new ∧
         Forall (λ c, is_upper c = true) new ∧ (length new ≤ k)%nat ∧
         (1 ≤ col_idx → new ≠ []) ∧ name_value (rev new) = col_idx.
Proof.
  revert fuel col_idx letters.
  induction k as [|k IH]; intros fuel col_idx letters Hb Hf.
  - simpl in Hb. assert (col_idx = 0) as -> by lia.
    exists []. rewrite app_nil_r. split; [by destruct fuel|].
    split; [constructor|]. split; [done|]. split; [lia|done].
  - destruct (decide (col_idx = 0)) as [->|Hnz].
    { exists []. rewrite app_nil_r. split; [by destruct fuel|].
      split; [constructor|]. split; [simpl; lia|]. split; [lia|done]. }
    destruct fuel as [|fuel]; [simpl in Hf; lia|].
    rewrite Nat2Z.inj_succ, Z.pow_succ_r in Hf by lia.
    change (name_bound (S k)) with (26 * (name_bound k + 1)) in Hb.
    assert (0 < 2 ^ Z.of_nat fuel) by (apply Z.pow_pos_nonneg; lia).
    simpl. destruct (Z.ltb_spec 0 col_idx) as [_|]; [|lia].
    pose proof (Z.div_mod col_idx 26 ltac:(lia)) as Hdm.
    pose proof (Z.mod_pos_bound col_idx 26 ltac:(lia)) as Hm.
    destruct (Z.eqb_spec (col_idx mod 26) 0) as [Hr|Hr].
    + destruct (IH fuel (col_idx / 26 - 1) (letters ++ [chr (26 + 64)]))
        as (new & -> & Hup & Hlen & _ & Hval); [lia|lia|].
      exists (chr (26 + 64) :: new). rewrite <- app_assoc. split; [done|].
      split; [constructor; [by apply is_upper_chr|done]|].
      split; [simpl; lia|]. split; [done|].
      cbn [rev]. rewrite name_value_snoc, Hval, ord_chr_upper by lia. lia.
    + destruct (IH fuel (col_idx / 26) (letters ++ [chr (col_idx mod 26 + 64)]))
        as (new & -> & Hup & Hlen & _ & Hval); [lia|lia|].
      exists (chr (col_idx mod 26 + 64) :: new). rewrite <- app_assoc. split; [done|].
      split; [constructor; [apply is_upper_chr; lia|done]|].
      split; [simpl; lia|]. split; [done|].
      cbn [rev]. rewrite name_value_snoc, Hval, ord_chr_upper by lia. lia.
Qed.

(** The letters [get_column_letter] returns: capital, one to three of
    them, and standing for the index. *)
Lemma get_column_letter_letters (col_idx : Z) (letter : string) :
  get_column_letter col_idx = Ok letter →
  is_column_name letter ∧ name_value (chars letter) = col_idx.
Proof.
  intros Hget.
  assert (1 ≤ col_idx ≤ 18278) as Hrange.
  { unfold get_column_letter in Hget.
    destruct (Z.leb_spec 1 col_idx), (Z.leb_spec col_idx 18278); done || lia. }
  destruct (column_letter_loop_letters 3 (S (Z.to_nat (Z.log2 col_idx))) col_idx [])
    as (new & Hnew & Hup & Hlen & Hne & Hval).
  { simpl. lia. }
  { rewrite Nat2Z.inj_succ, Z2Nat.id by apply Z.log2_nonneg. apply Z.log2_spec. lia. }
  unfold get_column_letter in Hget. rewrite Hnew in Hget.
  destruct (Z.leb_spec 1 col_idx), (Z.leb_spec col_idx 18278); try lia.
  cbn [andb app] in Hget. assert (letter = string_of_list_ascii (rev new)) as ->
    by congruence.
  unfold is_column_name, chars.
  rewrite list_ascii_of_string_of_list_ascii.
  assert (length (rev new) = length new) as Hrl by apply length_rev.
  split; [|done]. split.
  - assert (String.length (string_of_list_ascii (rev new)) = length (rev new)) as ->.
    { rewrite <- (list_ascii_of_string_of_list_ascii (rev new)) at 2.
      generalize (string_of_list_ascii (rev new)). clear.
      induction s; simpl; [done|by f_equal]. }
    rewrite Hrl. destruct new; [by destruct Hne; [lia|]|simpl in *; lia].
  - apply Forall_rev. done.
Qed.

Lemma get_column_letter_name (col_idx : Z) (letter : string) :
  get_column_letter col_idx = Ok letter → is_column_name letter.
Proof. intros H. by apply get_column_letter_letters in H as [? _]. Qed.

(** Two indices with the same column name are the same index. *)
Lemma get_column_letter_inj (i j : Z) (letter : string) :
  get_column_letter i = Ok letter → get_column_letter j = Ok letter → i = j.
Proof.
  intros [_ Hi]%get_column_letter_letters [_ Hj]%get_column_letter_letters.
  congruence.
Qed.

Lemma upper_unchanged (s : string) :
  Forall (λ c, is_lower c = false) (chars s) → upper s = s.
Proof.
  unfold chars. induction s as [|c s IH]; simpl; [done|].
  intros [Hc Hs]%Forall_cons. unfold upper_char. rewrite Hc, IH; done.
Qed.

Lemma header_ref_chars (letter : string) :
  chars (cat ["A1:"; letter; "1"]) = chars "A1:" ++ chars letter ++ chars "1".
Proof.
  unfold cat. cbn [String.concat]. rewrite !chars_append. simpl.
  done.
Qed.

Lemma header_ref_matches (letter : string) :
  is_column_name letter → matches_cell_range (cat ["A1:"; letter; "1"]) = true.
Proof.
  intros [Hlen Hup]. unfold matches_cell_range. rewrite header_ref_chars.
  unfold chars in *.
  destruct letter as [|c1 [|c2 [|c3 [|c4 ?]]]]; simpl in Hlen; try lia;
    simpl in Hup;
    repeat match goal with
           | H : Forall _ (_ :: _) |- _ => apply Forall_cons in H as [? H]
           | H : is_upper ?c = true |- _ =>
               destruct (upper_char_facts c H) as (_ & ? & ? & ? & ?); clear H
           end;
    unfold letters_1_3, drop_dollar;
    repeat (progress (simpl; repeat match goal with
                                    | H : _ = _ |- _ => rewrite H
                                    end));
    reflexivity.
Qed.

Lemma header_ref_accepted (letter : string) (s : Worksheet) :
  is_column_name letter →
  set_auto_filter_ref (cat ["A1:"; letter; "1"]) s =
  (Ok tt, with_auto_filter_ref (Some (cat ["A1:"; letter; "1"])) s).
Proof.
  intros Hname. unfold set_auto_filter_ref.
  rewrite upper_unchanged.
  - by rewrite header_ref_matches.
  - rewrite header_ref_chars. destruct Hname as [_ Hup].
    apply Forall_app. split; [repeat constructor|].
    apply Forall_app. split; [|repeat constructor].
    eapply Forall_impl; [exact Hup|]. intros c Hc.
    unfold is_upper, is_lower in *. lia.
Qed.

End ColumnNames.

Section StyleHeader.

Variables (header_font : Font) (header_fill : PatternFill)
          (header_align : Alignment) (thin_border : Border).

Local Abbreviation style_header := (style_header header_font header_fill header_align thin_border).
Local Abbreviation style_column := (style_column header_font header_fill header_align thin_border).
Local Abbreviation style_columns := (style_columns header_font header_fill header_align thin_border).
Local Abbreviation style_cell := (style_cell header_font header_fill header_align thin_border).
Local Abbreviation body := (header_cell_loop header_font header_fill header_align thin_border).
Local Abbreviation styled_header := (styled_header header_font header_fill header_align thin_border).

Lemma style_column_run ws s wb col :
  (ws < length (_sheets wb))%nat → 1 ≤ col →
  body ws col (put_sheet ws s wb) = (Ok tt, put_sheet ws (style_column s col) wb).
Proof.
  intros Hws Hcol. unfold body, mbind, M_bind.
  rewrite on_sheet_put, cell_run by (done || lia). cbn [fst snd].
  rewrite !on_sheet_put by done. cbn [fst snd set_cell modify].
  f_equal. f_equal. unfold style_column, Effect.style_column, Effect.style_cell.
  cbn. rewrite !alter_alter_same. reflexivity.
Qed.

Lemma style_loop_run ws wb cols s :
  (ws < length (_sheets wb))%nat → Forall (λ col, 1 ≤ col) cols →
  for_each cols (body ws) (put_sheet ws s wb) =
  (Ok tt, put_sheet ws (style_columns cols s) wb).
Proof.
  intros Hws Hcols. revert s.
  induction Hcols as [|col cols Hcol _ IH]; intros s; [done|].
  cbn [for_each]. unfold mbind at 1, M_bind at 1.
  rewrite style_column_run by done. apply IH.
Qed.

Lemma freeze_A2_run s :
  set_freeze_panes "A2" s = (Ok tt, with_pane (Some FROZEN_A2) s).
Proof. reflexivity. Qed.

Lemma range_from_1 n : Forall (λ col, 1 ≤ col) (range 1 (n + 1)).
Proof. apply Forall_forall. intros col Hin. apply elem_of_seqZ in Hin. lia. Qed.

Lemma style_header_run ws wb s n letter :
  _sheets wb !! ws = Some s → get_column_letter n = Ok letter →
  style_header ws n wb = (Ok tt, put_sheet ws (styled_header n letter s) wb).
Proof.
  intros Hs Hletter.
  assert (ws < length (_sheets wb))%nat as Hws by (by eapply lookup_lt_Some).
  unfold create_template.style_header. fold (body ws).
  rewrite <- (put_sheet_id ws s wb Hs) at 1.
  unfold mbind at 1, M_bind at 1.
  rewrite style_loop_run by (done || apply range_from_1).
  unfold mbind at 1, M_bind at 1.
  rewrite on_sheet_put, freeze_A2_run by done. cbn [fst snd].
  unfold mbind at 1, M_bind at 1. unfold lift. rewrite Hletter.
  rewrite on_sheet_put, header_ref_accepted by (done || by eapply get_column_letter_name).
  reflexivity.
Qed.

Lemma style_header_out_of_range ws wb s n :
  _sheets wb !! ws = Some s → ¬ (1 ≤ n ≤ 18278) →
  style_header ws n wb =
  (Raise (ValueError "Invalid column index"),
   put_sheet ws (with_pane (Some FROZEN_A2) (style_columns (range 1 (n + 1)) s)) wb).
Proof.
  intros Hs Hn.
  assert (ws < length (_sheets wb))%nat as Hws by (by eapply lookup_lt_Some).
  unfold create_template.style_header. fold (body ws).
  rewrite <- (put_sheet_id ws s wb Hs) at 1.
  unfold mbind at 1, M_bind at 1.
  rewrite style_loop_run by (done || apply range_from_1).
  unfold mbind at 1, M_bind at 1.
  rewrite on_sheet_put, freeze_A2_run by done. cbn [fst snd].
  unfold mbind at 1, M_bind at 1. unfold lift.
  assert (get_column_letter n = Raise (ValueError "Invalid column index")) as ->.
  { unfold get_column_letter.
    destruct (Z.leb_spec 1 n), (Z.leb_spec n 18278); done || lia. }
  reflexivity.
Qed.

(** *** What styling columns does to a sheet *)

Lemma style_column_lookup s col k :
  _cells (style_column s col) !! k =
  if decide (k = (1, col))
  then Some (style_cell (default EMPTY_CELL (_cells s !! k)))
  else _cells s !! k.
Proof.
  unfold Effect.style_column, ensure_cell.
  destruct (decide (k = (1, col))) as [->|Hne].
  - destruct (_cells s !! (1, col)) as [c|] eqn:E; cbn.
    + by rewrite lookup_alter_eq, E.
    + by rewrite lookup_alter_eq, lookup_insert_eq.
  - destruct (_cells s !! (1, col)) as [c|] eqn:E; cbn.
    + by rewrite lookup_alter_ne.
    + by rewrite lookup_alter_ne, lookup_insert_ne.
Qed.

Lemma style_cell_idemp c : style_cell (style_cell c) = style_cell c.
Proof. reflexivity. Qed.

Lemma style_columns_lookup cols s k :
  _cells (style_columns cols s) !! k =
  if decide (k.1 = 1 ∧ k.2 ∈ cols)
  then Some (style_cell (default EMPTY_CELL (_cells s !! k)))
  else _cells s !! k.
Proof.
  revert s. induction cols as [|col cols IH]; intros s.
  - cbn. rewrite decide_False; [done|]. intros [_ H]. by apply elem_of_nil in H.
  - change (style_columns (col :: cols) s) with (style_columns cols (style_column s col)).
    rewrite IH, !style_column_lookup. destruct k as [r c]. cbn [fst snd].
    destruct (decide (r = 1 ∧ c ∈ cols)) as [[-> Hin]|Hn].
    + rewrite (decide_True (P := 1 = 1 ∧ c ∈ col :: cols)) by (split; [done|by right]).
      destruct (decide ((1, c) = (1, col))); done.
    + destruct (decide ((r, c) = (1, col))) as [[= -> ->]|Hne].
      * by rewrite decide_True by (split; [done|by left]).
      * rewrite decide_False; [done|]. intros [-> Hin].
        apply elem_of_cons in Hin as [->|Hin]; [done|]. apply Hn. done.
Qed.

Lemma style_columns_fields cols s :
  title (style_columns cols s) = title s ∧
  pane (style_columns cols s) = pane s ∧
  auto_filter_ref (style_columns cols s) = auto_filter_ref s ∧
  column_dimensions (style_columns cols s) = column_dimensions s.
Proof.
  revert s. induction cols as [|col cols IH]; intros s; [done|].
  change (style_columns (col :: cols) s) with (style_columns cols (style_column s col)).
  destruct (IH (style_column s col)) as (-> & -> & -> & ->).
  unfold Effect.style_column, ensure_cell.
  by destruct (_cells s !! (1, col)).
Qed.

Lemma style_columns_current_row cols s :
  _current_row (style_columns cols s) =
  if decide (Forall (λ col, is_Some (_cells s !! (1, col))) cols)
  then _current_row s
  else Z.max 1 (_current_row s).
Proof.
  revert s. induction cols as [|col cols IH]; intros s.
  - by rewrite decide_True by constructor.
  - change (style_columns (col :: cols) s) with (style_columns cols (style_column s col)).
    rewrite IH.
    assert (Hiff : Forall (λ c, is_Some (_cells (style_column s col) !! (1, c))) cols
                   ↔ Forall (λ c, c = col ∨ is_Some (_cells s !! (1, c))) cols).
    { apply Forall_proper; [|done]. intros c. rewrite style_column_lookup.
      destruct (decide ((1, c) = (1, col))) as [[= ->]|Hne].
      - split; [by left|by eexists].
      - split; [by right|]. intros [->|H]; done. }
    assert (Hcur : _current_row (style_column s col) =
                   if decide (is_Some (_cells s !! (1, col)))
                   then _current_row s else Z.max 1 (_current_row s)).
    { unfold Effect.style_column, ensure_cell.
      destruct (_cells s !! (1, col)) eqn:E; cbn.
      - by rewrite decide_True by by eexists.
      - rewrite decide_False; [done|]. by intros [? [=]]. }
    rewrite Hcur.
    destruct (decide (is_Some (_cells s !! (1, col)))) as [HA|HA];
      destruct (decide (Forall _ cols)) as [H1|H1];
      destruct (decide (Forall _ (col :: cols))) as [H2|H2];
      try done; try lia; exfalso.
    + apply H2. constructor; [done|]. apply Hiff in H1.
      eapply Forall_impl; [exact H1|]. by intros c [->|?].
    + apply H1, Hiff. apply Forall_cons in H2 as [_ H2].
      eapply Forall_impl; [exact H2|]. intros c ?. by right.
    + apply Forall_cons in H2 as [H2 _]. done.
    + apply Forall_cons in H2 as [H2 _]. done.
Qed.

Lemma put_sheet_lookup ws s' wb :
  (ws < length (_sheets wb))%nat → _sheets (put_sheet ws s' wb) !! ws = Some s'.
Proof. intros H. unfold put_sheet. cbn. by apply list_lookup_insert_eq. Qed.

Lemma worksheet_ext (a b : Worksheet) :
  title a = title b → _cells a = _cells b → _current_row a = _current_row b →
  pane a = pane b → auto_filter_ref a = auto_filter_ref b →
  column_dimensions a = column_dimensions b → a = b.
Proof. destruct a, b; cbn; intros; by subst. Qed.

(** Whatever [num_cols] is, the sheet afterwards is the styled columns
    with the pane frozen, and the filter set or not. *)
Lemma style_header_state ws wb s n :
  _sheets wb !! ws = Some s →
  ∃ s', (style_header ws n wb).2 = put_sheet ws s' wb ∧
        _cells s' = _cells (style_columns (range 1 (n + 1)) s) ∧
        _current_row s' = _current_row (style_columns (range 1 (n + 1)) s) ∧
        title s' = title s ∧ column_dimensions s' = column_dimensions s ∧
        pane s' = Some FROZEN_A2.
Proof.
  intros Hs.
  destruct (style_columns_fields (range 1 (n + 1)) s) as (Ht & _ & _ & Hd).
  destruct (decide (1 ≤ n ≤ 18278)) as [Hn|Hn].
  - apply get_column_letter_defined in Hn as [letter Hl].
    rewrite (style_header_run ws wb s n letter Hs Hl).
    eexists. split; [reflexivity|]. done.
  - rewrite (style_header_out_of_range ws wb s n Hs Hn).
    eexists. split; [reflexivity|]. done.
Qed.

Lemma in_range_1 n c : c ∈ range 1 (n + 1) ↔ 1 ≤ c ≤ n.
Proof. unfold range. rewrite elem_of_seqZ. lia. Qed.

(** X1.  On a sheet of the workbook and for a column count between 1 and
    18278, [style_header] ends without raising; afterwards row 1 is frozen
    (pane at A2) and the auto-filter reference is A1:<letter>1, where
    <letter>, the name of the last column, is one to three capital
    letters. *)
Theorem style_header_sets_view ws wb s n :
  _sheets wb !! ws = Some s → 1 ≤ n ≤ 18278 →
  ∃ wb' s' letter,
    style_header ws n wb = (Ok tt, wb') ∧ _sheets wb' !! ws = Some s' ∧
    get_column_letter n = Ok letter ∧ is_column_name letter ∧
    row_1_frozen s' ∧ freeze_panes s' = Some "A2" ∧
    auto_filter_ref s' = Some (cat ["A1:"; letter; "1"]).
Proof.
  intros Hs Hn.
  assert (ws < length (_sheets wb))%nat as Hws by (by eapply lookup_lt_Some).
  destruct (proj2 (get_column_letter_defined n) Hn) as [letter Hl].
  exists (put_sheet ws (styled_header n letter s) wb), (styled_header n letter s), letter.
  split; [by apply style_header_run|].
  split; [by apply put_sheet_lookup|].
  split; [done|]. split; [by eapply get_column_letter_name|].
  done.
Qed.

(** X2.  Under the same conditions every cell of row 1 in columns 1 to
    [num_cols] carries afterwards the four header style objects, and holds
    the value and data type it held before (those of an empty cell when
    there was none). *)
Theorem style_header_styles_header_cells ws wb s n c :
  _sheets wb !! ws = Some s → 1 ≤ n ≤ 18278 → 1 ≤ c ≤ n →
  ∃ wb' s' cell',
    style_header ws n wb = (Ok tt, wb') ∧ _sheets wb' !! ws = Some s' ∧
    _cells s' !! (1, c) = Some cell' ∧
    font cell' = header_font ∧ fill cell' = header_fill ∧
    alignment cell' = header_align ∧ border cell' = thin_border ∧
    _value cell' = _value (default EMPTY_CELL (_cells s !! (1, c))) ∧
    data_type cell' = data_type (default EMPTY_CELL (_cells s !! (1, c))).
Proof.
  intros Hs Hn Hc.
  assert (ws < length (_sheets wb))%nat as Hws by (by eapply lookup_lt_Some).
  destruct (proj2 (get_column_letter_defined n) Hn) as [letter Hl].
  exists (put_sheet ws (styled_header n letter s) wb), (styled_header n letter s),
         (style_cell (default EMPTY_CELL (_cells s !! (1, c)))).
  split; [by apply style_header_run|].
  split; [by apply put_sheet_lookup|].
  split; [|done].
  change (_cells (styled_header n letter s))
    with (_cells (style_columns (range 1 (n + 1)) s)).
  rewrite style_columns_lookup, decide_True; [done|].
  split; [done|]. by apply in_range_1.
Qed.

(** X3.  Whatever the column count, even when the call raises:
    [style_header] changes no cell outside row 1, columns 1 to [num_cols];
    it removes no cell and changes the value and data type of none; the
    sheet title and the column widths stay as they were. *)
Theorem style_header_keeps_cell_content ws wb s n :
  _sheets wb !! ws = Some s →
  ∃ s', _sheets (style_header ws n wb).2 !! ws = Some s' ∧
    (∀ k, ¬ (k.1 = 1 ∧ 1 ≤ k.2 ≤ n) → _cells s' !! k = _cells s !! k) ∧
    (∀ k cell, _cells s !! k = Some cell →
       ∃ cell', _cells s' !! k = Some cell' ∧ _value cell' = _value cell ∧
                data_type cell' = data_type cell) ∧
    title s' = title s ∧ column_dimensions s' = column_dimensions s.
Proof.
  intros Hs.
  assert (ws < length (_sheets wb))%nat as Hws by (by eapply lookup_lt_Some).
  destruct (style_header_state ws wb s n Hs) as (s' & -> & Hcells & _ & Ht & Hd & _).
  exists s'. split; [by apply put_sheet_lookup|].
  rewrite Hcells. split; [|split; [|done]].
  - intros k Hk. rewrite style_columns_lookup, decide_False; [done|].
    rewrite in_range_1. done.
  - intros k cell Hcell. rewrite style_columns_lookup, Hcell.
    destruct (decide _); eexists; (split; [reflexivity|done]).
Qed.

(** X4.  Whatever the column count, [style_header] leaves the other
    sheets of the workbook, the number, order and names of the sheets, the
    active index and the timestamps as they were. *)
Theorem style_header_leaves_other_sheets ws wb s n :
  _sheets wb !! ws = Some s →
  length (_sheets (style_header ws n wb).2) = length (_sheets wb) ∧
  sheetnames (style_header ws n wb).2 = sheetnames wb ∧
  (∀ other, other ≠ ws →
     _sheets (style_header ws n wb).2 !! other = _sheets wb !! other) ∧
  _active_sheet_index (style_header ws n wb).2 = _active_sheet_index wb ∧
  created (style_header ws n wb).2 = created wb ∧
  modified (style_header ws n wb).2 = modified wb.
Proof.
  intros Hs.
  destruct (style_header_state ws wb s n Hs) as (s' & -> & _ & _ & Ht & _).
  unfold put_sheet, sheetnames.
  cbn [_sheets with_sheets _active_sheet_index created modified].
  split; [apply length_insert|]. split.
  - rewrite list_fmap_insert, Ht. apply list_insert_id.
    rewrite list_lookup_fmap. exact (f_equal (fmap title) Hs).
  - split; [|done]. intros other Hne. by apply list_lookup_insert_ne.
Qed.

(** X5.  For a column count below 1 or above 18278, [style_header]
    raises ValueError from the column-letter lookup, after it froze row 1
    and before it set the auto-filter, which stays as it was; for a count
    below 1 no cell is made or changed. *)
Theorem style_header_rejects_bad_width ws wb s n :
  _sheets wb !! ws = Some s → ¬ (1 ≤ n ≤ 18278) →
  ∃ wb' s',
    style_header ws n wb = (Raise (ValueError "Invalid column index"), wb') ∧
    _sheets wb' !! ws = Some s' ∧
    row_1_frozen s' ∧ auto_filter_ref s' = auto_filter_ref s ∧
    (n ≤ 0 → _cells s' = _cells s ∧ _current_row s' = _current_row s).
Proof.
  intros Hs Hn.
  assert (ws < length (_sheets wb))%nat as Hws by (by eapply lookup_lt_Some).
  eexists _, _. split; [by apply style_header_out_of_range|].
  split; [by apply put_sheet_lookup|]. split; [done|]. split.
  - cbn. apply style_columns_fields.
  - intros Hle. unfold range. rewrite seqZ_nil by lia. done.
Qed.

(** X6.  Styling the header a second time with the same column count
    changes nothing: the workbook after the second call is the workbook
    after the first. *)
Theorem style_header_idempotent ws wb s n :
  _sheets wb !! ws = Some s → 1 ≤ n ≤ 18278 →
  ∃ wb', style_header ws n wb = (Ok tt, wb') ∧
         style_header ws n wb' = (Ok tt, wb').
Proof.
  intros Hs Hn.
  assert (ws < length (_sheets wb))%nat as Hws by (by eapply lookup_lt_Some).
  destruct (proj2 (get_column_letter_defined n) Hn) as [letter Hl].
  exists (put_sheet ws (styled_header n letter s) wb).
  split; [by apply style_header_run|].
  rewrite (style_header_run ws _ (styled_header n letter s) n letter
             (put_sheet_lookup ws _ wb Hws) Hl).
  rewrite put_sheet_put_sheet. f_equal. f_equal.
  destruct (style_columns_fields (range 1 (n + 1)) (styled_header n letter s))
    as (Ht & _ & _ & Hd).
  apply worksheet_ext;
    [exact Ht | | | reflexivity | reflexivity | exact Hd].
  - change (_cells (style_columns (range 1 (n + 1)) (styled_header n letter s)) =
            _cells (style_columns (range 1 (n + 1)) s)).
    apply map_eq. intros k. rewrite style_columns_lookup.
    change (_cells (styled_header n letter s))
      with (_cells (style_columns (range 1 (n + 1)) s)).
    rewrite style_columns_lookup. by destruct (decide _).
  - change (_current_row (style_columns (range 1 (n + 1)) (styled_header n letter s)) =
            _current_row (styled_header n letter s)).
    rewrite style_columns_current_row, decide_True; [done|].
    apply Forall_forall. intros col Hcol.
    change (_cells (styled_header n letter s))
      with (_cells (style_columns (range 1 (n + 1)) s)).
    rewrite style_columns_lookup, decide_True by done. by eexists.
Qed.

(** X7.  Where row 1 has no cell in one of the columns 1 to [num_cols],
    [style_header] makes one: an empty cell (value None, data type n); the
    row counter of the sheet becomes at least 1, so that a later append
    goes below row 1. *)
Theorem style_header_creates_missing_cells ws wb s n c :
  _sheets wb !! ws = Some s → 1 ≤ n ≤ 18278 → 1 ≤ c ≤ n →
  _cells s !! (1, c) = None →
  ∃ wb' s' cell',
    style_header ws n wb = (Ok tt, wb') ∧ _sheets wb' !! ws = Some s' ∧
    _cells s' !! (1, c) = Some cell' ∧
    _value cell' = PyNone ∧ data_type cell' = "n" ∧
    _current_row s' = Z.max 1 (_current_row s).
Proof.
  intros Hs Hn Hc Hnone.
  assert (ws < length (_sheets wb))%nat as Hws by (by eapply lookup_lt_Some).
  destruct (proj2 (get_column_letter_defined n) Hn) as [letter Hl].
  exists (put_sheet ws (styled_header n letter s) wb), (styled_header n letter s),
         (style_cell EMPTY_CELL).
  split; [by apply style_header_run|].
  split; [by apply put_sheet_lookup|].
  change (_cells (styled_header n letter s))
    with (_cells (style_columns (range 1 (n + 1)) s)).
  change (_current_row (styled_header n letter s))
    with (_current_row (style_columns (range 1 (n + 1)) s)).
  rewrite style_columns_lookup, decide_True by (by rewrite in_range_1).
  rewrite Hnone. split; [done|]. split; [done|]. split; [done|].
  rewrite style_columns_current_row, decide_False; [done|].
  intros Hall. rewrite Forall_forall in Hall.
  destruct (Hall c) as [? Hsome]; [by apply in_range_1|]. congruence.
Qed.

(** X8.  Where row 1 already has a cell in each of the columns 1 to
    [num_cols], [style_header] makes no cell and leaves the row counter as
    it was: the next append goes where it would have gone. *)
Theorem style_header_keeps_append_row ws wb s n :
  _sheets wb !! ws = Some s → 1 ≤ n ≤ 18278 →
  (∀ c, 1 ≤ c ≤ n → is_Some (_cells s !! (1, c))) →
  ∃ wb' s',
    style_header ws n wb = (Ok tt, wb') ∧ _sheets wb' !! ws = Some s' ∧
    _current_row s' = _current_row s ∧
    dom (_cells s') = dom (_cells s).
Proof.
  intros Hs Hn Hall.
  assert (ws < length (_sheets wb))%nat as Hws by (by eapply lookup_lt_Some).
  destruct (proj2 (get_column_letter_defined n) Hn) as [letter Hl].
  exists (put_sheet ws (styled_header n letter s) wb), (styled_header n letter s).
  split; [by apply style_header_run|].
  split; [by apply put_sheet_lookup|].
  change (_cells (styled_header n letter s))
    with (_cells (style_columns (range 1 (n + 1)) s)).
  change (_current_row (styled_header n letter s))
    with (_current_row (style_columns (range 1 (n + 1)) s)).
  split.
  - rewrite style_columns_current_row, decide_True; [done|].
    apply Forall_forall. intros c Hc. by apply Hall, in_range_1.
  - apply set_eq. intros k. rewrite !elem_of_dom, style_columns_lookup.
    destruct (decide _) as [[Hr Hin]|]; [|done].
    split; [|by eexists]. intros _. destruct k as [r c]. cbn in *. subst r.
    by apply Hall, in_range_1.
Qed.

(** X9.  Appending a header list to a sheet that has no row yet and then
    styling as many columns as the list has entries, as every tab does,
    ends without raising when the list has 1 to 18278 values the cell
    constructor accepts; afterwards the i-th cell of row 1 is the cell made
    of the i-th header with the header style, the row counter is 1, and
    every cell outside the header row is as it was. *)
Theorem header_row_written_then_styled ws wb s headers cells :
  _sheets wb !! ws = Some s → _current_row s = 0 →
  cells_of headers cells → 1 ≤ len_list headers ≤ 18278 →
  ∃ wb' s',
    (_ ← on_sheet ws (append headers); style_header ws (len_list headers)) wb
      = (Ok tt, wb') ∧
    _sheets wb' !! ws = Some s' ∧ _current_row s' = 1 ∧
    (∀ i c, cells !! i = Some c →
       _cells s' !! (1, Z.of_nat i + 1) = Some (style_cell c)) ∧
    (∀ k, ¬ (k.1 = 1 ∧ 1 ≤ k.2 ≤ len_list headers) → _cells s' !! k = _cells s !! k).
Proof.
  intros Hs Hcur Hcells Hn.
  assert (ws < length (_sheets wb))%nat as Hws by (by eapply lookup_lt_Some).
  assert (length cells = length headers) as Hlen
    by (symmetry; by eapply Forall2_length).
  destruct (proj2 (get_column_letter_defined _) Hn) as [letter Hl].
  set (n := len_list headers) in *.
  exists (put_sheet ws (styled_header n letter (appended cells s)) wb),
         (styled_header n letter (appended cells s)).
  split.
  { unfold mbind at 1, M_bind at 1.
    rewrite <- (put_sheet_id ws s wb Hs) at 1.
    rewrite on_sheet_put, (append_run headers cells) by done. cbn [fst snd].
    rewrite (style_header_run ws _ (appended cells s) n letter
               (put_sheet_lookup ws _ wb Hws) Hl).
    by rewrite put_sheet_put_sheet. }
  split; [by apply put_sheet_lookup|].
  change (_cells (styled_header n letter (appended cells s)))
    with (_cells (style_columns (range 1 (n + 1)) (appended cells s))).
  change (_current_row (styled_header n letter (appended cells s)))
    with (_current_row (style_columns (range 1 (n + 1)) (appended cells s))).
  assert (Hplaced : ∀ c, 1 ≤ c ≤ n →
            _cells (appended cells s) !! (1, c) = cells !! Z.to_nat (c - 1)).
  { intros c Hc. rewrite appended_lookup, decide_True; [done|].
    cbn [fst snd]. unfold n, len_list in Hc. lia. }
  split; [|split].
  - rewrite style_columns_current_row, decide_True.
    + unfold appended. cbn. lia.
    + apply Forall_forall. intros c Hc%in_range_1. rewrite Hplaced by done.
      apply lookup_lt_is_Some. unfold n, len_list in Hc. lia.
  - intros i c Hi. apply lookup_lt_Some in Hi as Hlt.
    rewrite style_columns_lookup, decide_True.
    + rewrite Hplaced by (unfold n, len_list; lia).
      replace (Z.to_nat (Z.of_nat i + 1 - 1)) with i by lia. by rewrite Hi.
    + split; [done|]. apply in_range_1. cbn. unfold n, len_list. lia.
  - intros k Hk. rewrite style_columns_lookup, decide_False by (by rewrite in_range_1).
    rewrite appended_lookup, decide_False; [done|].
    rewrite Hcur, Hlen. unfold n, len_list in Hk. lia.
Qed.

(** X10.  Appending rows one after the other, as the loops over the
    default rows do, ends without raising when the cell constructor accepts
    every value; the i-th row goes to the i-th row after the row counter,
    its j-th value to column j; the counter advances by the number of rows;
    no cell at or above the old counter is touched. *)
Theorem rows_appended_in_order ws wb s rows cellss :
  _sheets wb !! ws = Some s → Forall2 cells_of rows cellss →
  ∃ wb' s',
    for_each rows (λ row, on_sheet ws (append row)) wb = (Ok tt, wb') ∧
    _sheets wb' !! ws = Some s' ∧
    _current_row s' = _current_row s + len_list rows ∧
    (∀ i j cells c, cellss !! i = Some cells → cells !! j = Some c →
       _cells s' !! (_current_row s + 1 + Z.of_nat i, Z.of_nat j + 1) = Some c) ∧
    (∀ k, k.1 ≤ _current_row s → _cells s' !! k = _cells s !! k).
Proof.
  intros Hs Hrows.
  assert (ws < length (_sheets wb))%nat as Hws by (by eapply lookup_lt_Some).
  assert (Hrun : for_each rows (λ row, on_sheet ws (append row)) (put_sheet ws s wb)
                 = (Ok tt, put_sheet ws (appended_rows cellss s) wb)).
  { clear Hs. revert s. induction Hrows as [|row cells rows cellss Hrow _ IH];
      intros s; [done|].
    cbn [for_each]. unfold mbind at 1, M_bind at 1.
    rewrite on_sheet_put, (append_run row cells) by done. cbn [fst snd]. apply IH. }
  rewrite (put_sheet_id ws s wb Hs) in Hrun.
  exists (put_sheet ws (appended_rows cellss s) wb), (appended_rows cellss s).
  split; [done|]. split; [by apply put_sheet_lookup|].
  destruct (appended_rows_spec cellss s) as (Hcur & Hput & Hframe & _).
  split; [|done]. rewrite Hcur. unfold len_list.
  by rewrite (Forall2_length _ _ _ Hrows).
Qed.

End StyleHeader.

Section Widths.

(** The name of a column leads back to its index, over the whole range
    A to ZZZ. *)
Lemma column_name_round_trip (i : Z) (letter : string) :
  get_column_letter i = Ok letter → _COL_STRING_CACHE letter = Ok i.
Proof.
  intros [[Hlen Hup] Hval]%get_column_letter_letters.
  unfold _COL_STRING_CACHE, all_chars.
  assert (forallb is_upper (chars letter) = true) as ->.
  { apply forallb_forall. intros c Hin. rewrite Forall_forall in Hup.
    by apply Hup, list_elem_of_In. }
  destruct (Z.leb_spec 1 (Z.of_nat (String.length letter))); [|lia].
  destruct (Z.leb_spec (Z.of_nat (String.length letter)) 3); [|lia].
  cbn [andb]. by rewrite <- Hval.
Qed.

Lemma set_widths_run ws wb s start widths :
  (ws < length (_sheets wb))%nat →
  1 ≤ start → start + Z.of_nat (length widths) ≤ 18279 →
  for_each (enumerate widths start) (λ '(i, w),
      letter ← lift (get_column_letter i);
      on_sheet ws (set_column_width letter w)) (put_sheet ws s wb) =
  (Ok tt, put_sheet ws (set_widths start widths s) wb).
Proof.
  intros Hws. revert start s.
  induction widths as [|w widths IH]; intros start s Hstart Hend; [done|].
  cbn [length] in Hend.
  destruct (proj2 (get_column_letter_defined start)) as [letter Hl]; [lia|].
  cbn [enumerate for_each]. unfold mbind at 1, M_bind at 1.
  unfold mbind at 1, M_bind at 1, lift. rewrite Hl.
  rewrite on_sheet_put by done. cbn [fst snd set_column_width modify].
  rewrite IH by lia. unfold set_widths. cbn [enumerate fold_left]. by rewrite Hl.
Qed.

Lemma set_widths_spec start widths s :
  1 ≤ start → start + Z.of_nat (length widths) ≤ 18279 →
  (∀ i w, widths !! i = Some w →
     width_of_column (set_widths start widths s) (start + Z.of_nat i) = Some w) ∧
  (∀ key, (∀ i, start ≤ i < start + Z.of_nat (length widths) →
                get_column_letter i ≠ Ok key) →
     column_dimensions (set_widths start widths s) !! key = column_dimensions s !! key) ∧
  _cells (set_widths start widths s) = _cells s ∧
  _current_row (set_widths start widths s) = _current_row s ∧
  title (set_widths start widths s) = title s ∧
  pane (set_widths start widths s) = pane s ∧
  auto_filter_ref (set_widths start widths s) = auto_filter_ref s.
Proof.
  revert start s. induction widths as [|w widths IH]; intros start s Hstart Hend.
  - split; [by intros i w [=]|]. done.
  - cbn [length] in Hend.
    destruct (proj2 (get_column_letter_defined start)) as [letter Hl]; [lia|].
    assert (set_widths start (w :: widths) s =
            set_widths (start + 1) widths
              (with_column_dimensions (<[letter := w]> (column_dimensions s)) s)) as ->.
    { unfold set_widths. cbn [enumerate fold_left]. by rewrite Hl. }
    destruct (IH (start + 1)
                (with_column_dimensions (<[letter := w]> (column_dimensions s)) s))
      as (Hput & Hframe & -> & -> & -> & -> & ->); [lia|lia|].
    split; [|split; [|done]].
    + intros [|i] w' Hw'.
      * injection Hw' as <-. unfold width_of_column.
        replace (start + Z.of_nat 0) with start by lia. rewrite Hl, Hframe.
        -- cbn. apply lookup_insert_eq.
        -- intros i Hi Heq. assert (i = start) by (by eapply get_column_letter_inj). lia.
      * replace (start + Z.of_nat (S i)) with (start + 1 + Z.of_nat i) by lia.
        by apply Hput.
    + intros key Hkey. rewrite Hframe.
      * cbn. apply lookup_insert_ne. intros ->. apply (Hkey start); [cbn [length]; lia|done].
      * intros i Hi. apply Hkey. cbn [length]. lia.
Qed.

(** X11.  The loop that sets the widths of columns 1, 2, ... from a list
    of at most 18278 widths ends without raising; afterwards the i-th
    column has the i-th width (no later column overwrites it, since
    distinct indices have distinct letters), columns beyond the list keep
    their width, and cells, row counter, pane and auto-filter are as they
    were. *)
Theorem widths_set_by_position ws wb s widths :
  _sheets wb !! ws = Some s → len_list widths ≤ 18278 →
  ∃ wb' s',
    for_each (enumerate widths 1) (λ '(i, w),
        letter ← lift (get_column_letter i);
        on_sheet ws (set_column_width letter w)) wb = (Ok tt, wb') ∧
    _sheets wb' !! ws = Some s' ∧
    (∀ i w, widths !! i = Some w → width_of_column s' (Z.of_nat i + 1) = Some w) ∧
    (∀ key, (∀ i, 1 ≤ i ≤ len_list widths → get_column_letter i ≠ Ok key) →
       column_dimensions s' !! key = column_dimensions s !! key) ∧
    _cells s' = _cells s ∧ _current_row s' = _current_row s ∧
    pane s' = pane s ∧ auto_filter_ref s' = auto_filter_ref s.
Proof.
  intros Hs Hlen. unfold len_list in *.
  assert (ws < length (_sheets wb))%nat as Hws by (by eapply lookup_lt_Some).
  exists (put_sheet ws (set_widths 1 widths s) wb), (set_widths 1 widths s).
  split.
  { rewrite <- (put_sheet_id ws s wb Hs) at 1. apply set_widths_run; [done|lia|lia]. }
  split; [by apply put_sheet_lookup|].
  destruct (set_widths_spec 1 widths s) as (Hput & Hframe & Hc & Hr & _ & Hp & Hf);
    [lia|lia|].
  split; [|split; [|done]].
  - intros i w Hw. rewrite Z.add_comm. by apply Hput.
  - intros key Hkey. apply Hframe. intros i Hi. apply Hkey. lia.
Qed.

Lemma widths_overflow ws wb start widths :
  1 ≤ start ≤ 18279 → 18279 < start + Z.of_nat (length widths) →
  ∀ s, (ws < length (_sheets wb))%nat →
  (for_each (enumerate widths start) (λ '(i, w),
      letter ← lift (get_column_letter i);
      on_sheet ws (set_column_width letter w)) (put_sheet ws s wb)).1 =
  Raise (ValueError "Invalid column index").
Proof.
  revert start. induction widths as [|w widths IH]; intros start Hstart Hend s Hws.
  - cbn in Hend. lia.
  - cbn [length] in Hend. cbn [enumerate for_each].
    unfold mbind at 1, M_bind at 1. unfold mbind at 1, M_bind at 1, lift.
    destruct (decide (start = 18279)) as [->|Hne]; [done|].
    destruct (proj2 (get_column_letter_defined start)) as [letter Hl]; [lia|].
    rewrite Hl. rewrite on_sheet_put by done. cbn [fst snd].
    apply IH; [lia|lia|done].
Qed.

(** X12.  With more than 18278 widths the loop raises ValueError: there
    is no column letter past ZZZ. *)
Theorem widths_beyond_last_column_rejected ws wb s widths :
  _sheets wb !! ws = Some s → 18278 < len_list widths →
  (for_each (enumerate widths 1) (λ '(i, w),
      letter ← lift (get_column_letter i);
      on_sheet ws (set_column_width letter w)) wb).1 =
  Raise (ValueError "Invalid column index").
Proof.
  intros Hs Hlen. unfold len_list in Hlen.
  assert (ws < length (_sheets wb))%nat as Hws by (by eapply lookup_lt_Some).
  rewrite <- (put_sheet_id ws s wb Hs) at 1.
  apply widths_overflow; [lia|lia|done].
Qed.

End Widths.

Section WrapLoop.

Lemma wrap_row_run r s :
  1 ≤ r < 1048577 →
  (cells ← mapM (λ column, cell r column) (range 2 (2 + 1));
   for_each cells (λ cell,
     a ← lift (new_Alignment None (Some "top") (Some true));
     set_cell (with_alignment a) cell)) s =
  (Ok tt, wrap_row s r).
Proof.
  intros Hr. change (range 2 (2 + 1)) with [2]. cbn [mapM].
  unfold mbind, M_bind. rewrite cell_run by lia. reflexivity.
Qed.

Lemma wrap_rows_run rows s :
  Forall (λ r, 1 ≤ r < 1048577) rows →
  for_each rows (λ row,
    cells ← mapM (λ column, cell row column) (range 2 (2 + 1));
    for_each cells (λ cell,
      a ← lift (new_Alignment None (Some "top") (Some true));
      set_cell (with_alignment a) cell)) s =
  (Ok tt, wrap_rows rows s).
Proof.
  intros H. revert s. induction H as [|r rows Hr _ IH]; intros s; [done|].
  cbn [for_each]. unfold mbind at 1, M_bind at 1.
  rewrite wrap_row_run by done. apply IH.
Qed.

Lemma iter_rows_wrap_run s :
  max_row s ≤ 1048576 →
  iter_rows (Some 2) None (Some 2) (Some 2) (λ row,
    for_each row (λ cell,
      a ← lift (new_Alignment None (Some "top") (Some true));
      set_cell (with_alignment a) cell)) s =
  (Ok tt, wrap_rows (range 2 (max_row s + 1)) s).
Proof.
  intros Hmax. unfold iter_rows. unfold mbind at 1, M_bind at 1, get.
  rewrite andb_false_r. cbn [or_default Z.eqb].
  apply wrap_rows_run. apply Forall_forall. intros r Hin.
  apply elem_of_seqZ in Hin. lia.
Qed.

Lemma wrap_rows_lookup rows s k :
  _cells (wrap_rows rows s) !! k =
  if decide (k.2 = 2 ∧ k.1 ∈ rows)
  then Some (with_alignment WRAP_TOP (default EMPTY_CELL (_cells s !! k)))
  else _cells s !! k.
Proof.
  revert s. induction rows as [|r rows IH]; intros s.
  - cbn. rewrite decide_False; [done|]. intros [_ H]. by apply elem_of_nil in H.
  - change (wrap_rows (r :: rows) s) with (wrap_rows rows (wrap_row s r)).
    rewrite IH.
    assert (Hstep : ∀ k', _cells (wrap_row s r) !! k' =
              if decide (k' = (r, 2))
              then Some (with_alignment WRAP_TOP (default EMPTY_CELL (_cells s !! k')))
              else _cells s !! k').
    { intros k'. unfold wrap_row, ensure_cell.
      destruct (decide (k' = (r, 2))) as [->|Hne];
        destruct (_cells s !! (r, 2)) as [c|] eqn:E; cbn.
      - by rewrite lookup_alter_eq, E.
      - by rewrite lookup_alter_eq, lookup_insert_eq.
      - by rewrite lookup_alter_ne.
      - by rewrite lookup_alter_ne, lookup_insert_ne. }
    rewrite !Hstep. destruct k as [r' c]. cbn [fst snd].
    destruct (decide (c = 2 ∧ r' ∈ rows)) as [[-> Hin]|Hn].
    + rewrite (decide_True (P := 2 = 2 ∧ r' ∈ r :: rows)) by (split; [done|by right]).
      destruct (decide ((r', 2) = (r, 2))); done.
    + destruct (decide ((r', c) = (r, 2))) as [[= -> ->]|Hne].
      * by rewrite decide_True by (split; [done|by left]).
      * rewrite decide_False; [done|]. intros [-> Hin].
        apply elem_of_cons in Hin as [->|Hin]; [done|]. apply Hn. done.
Qed.

Lemma wrap_rows_fields rows s :
  title (wrap_rows rows s) = title s ∧
  pane (wrap_rows rows s) = pane s ∧
  auto_filter_ref (wrap_rows rows s) = auto_filter_ref s ∧
  column_dimensions (wrap_rows rows s) = column_dimensions s.
Proof.
  revert s. induction rows as [|r rows IH]; intros s; [done|].
  change (wrap_rows (r :: rows) s) with (wrap_rows rows (wrap_row s r)).
  destruct (IH (wrap_row s r)) as (-> & -> & -> & ->).
  unfold wrap_row, ensure_cell. by destruct (_cells s !! (r, 2)).
Qed.

(** X13.  The loop over [iter_rows(min_row=2, min_col=2, max_col=2)],
    on a sheet whose last row is within the row limit, ends without
    raising; every cell of column B from row 2 to the last row (made empty
    if absent) gets the wrapped, top-aligned alignment and keeps its value
    and font; every other cell, in particular row 1 and column A, and the
    title, widths, pane and auto-filter are as they were. *)
Theorem prompt_text_cells_wrapped ws wb s :
  _sheets wb !! ws = Some s → max_row s ≤ 1048576 →
  ∃ wb' s',
    on_sheet ws (iter_rows (Some 2) None (Some 2) (Some 2) (λ row,
      for_each row (λ cell,
        a ← lift (new_Alignment None (Some "top") (Some true));
        set_cell (with_alignment a) cell))) wb = (Ok tt, wb') ∧
    _sheets wb' !! ws = Some s' ∧
    (∀ r, 2 ≤ r ≤ max_row s →
       ∃ cell', _cells s' !! (r, 2) = Some cell' ∧ alignment cell' = WRAP_TOP ∧
         _value cell' = _value (default EMPTY_CELL (_cells s !! (r, 2))) ∧
         font cell' = font (default EMPTY_CELL (_cells s !! (r, 2)))) ∧
    (∀ k, ¬ (k.2 = 2 ∧ 2 ≤ k.1 ≤ max_row s) → _cells s' !! k = _cells s !! k) ∧
    title s' = title s ∧ column_dimensions s' = column_dimensions s ∧
    pane s' = pane s ∧ auto_filter_ref s' = auto_filter_ref s.
Proof.
  intros Hs Hmax.
  assert (ws < length (_sheets wb))%nat as Hws by (by eapply lookup_lt_Some).
  exists (put_sheet ws (wrap_rows (range 2 (max_row s + 1)) s) wb),
         (wrap_rows (range 2 (max_row s + 1)) s).
  split.
  { rewrite <- (put_sheet_id ws s wb Hs) at 1.
    by rewrite on_sheet_put, iter_rows_wrap_run. }
  split; [by apply put_sheet_lookup|].
  assert (Hin : ∀ r, r ∈ range 2 (max_row s + 1) ↔ 2 ≤ r ≤ max_row s).
  { intros r. unfold range. rewrite elem_of_seqZ. lia. }
  destruct (wrap_rows_fields (range 2 (max_row s + 1)) s) as (Ht & Hp & Hf & Hd).
  split; [|split; [|done]].
  - intros r Hr. eexists. rewrite wrap_rows_lookup, decide_True by (by rewrite Hin).
    split; [reflexivity|done].
  - intros k Hk. rewrite wrap_rows_lookup, decide_False; [done|]. by rewrite Hin.
Qed.

End WrapLoop.

(** The theorems above at sample inputs. *)

Lemma style_header_sets_view_witness :
  _sheets (book_of blank_sheet) !! 0%nat = Some blank_sheet ∧ 1 ≤ 3 ≤ 18278 ∧
  ∃ wb' s' letter,
    style_header header_font header_fill header_align thin_border
      0%nat 3 (book_of blank_sheet) = (Ok tt, wb') ∧
    _sheets wb' !! 0%nat = Some s' ∧
    get_column_letter 3 = Ok letter ∧ is_column_name letter ∧
    row_1_frozen s' ∧ freeze_panes s' = Some "A2" ∧
    auto_filter_ref s' = Some (cat ["A1:"; letter; "1"]).
Proof.
  split; [reflexivity|]. split; [lia|].
  apply (style_header_sets_view header_font header_fill header_align thin_border
           0%nat (book_of blank_sheet) blank_sheet 3); [reflexivity|lia].
Defined.

Lemma style_header_styles_header_cells_witness :
  _sheets (book_of header_sheet) !! 0%nat = Some header_sheet ∧
  1 ≤ 2 ≤ 18278 ∧ 1 ≤ 2 ≤ 2 ∧
  ∃ wb' s' cell',
    style_header header_font header_fill header_align thin_border
      0%nat 2 (book_of header_sheet) = (Ok tt, wb') ∧
    _sheets wb' !! 0%nat = Some s' ∧
    _cells s' !! (1, 2) = Some cell' ∧
    font cell' = header_font ∧ fill cell' = header_fill ∧
    alignment cell' = header_align ∧ border cell' = thin_border ∧
    _value cell' = _value (default EMPTY_CELL (_cells header_sheet !! (1, 2))) ∧
    data_type cell' = data_type (default EMPTY_CELL (_cells header_sheet !! (1, 2))).
Proof.
  split; [reflexivity|]. split; [lia|]. split; [lia|].
  apply (style_header_styles_header_cells header_font header_fill header_align
           thin_border 0%nat (book_of header_sheet) header_sheet 2 2);
    [reflexivity|lia|lia].
Defined.

Lemma style_header_keeps_cell_content_witness :
  _sheets (book_of three_row_sheet) !! 0%nat = Some three_row_sheet ∧
  ∃ s',
    _sheets (style_header header_font header_fill header_align thin_border
               0%nat 2 (book_of three_row_sheet)).2 !! 0%nat = Some s' ∧
    (∀ k, ¬ (k.1 = 1 ∧ 1 ≤ k.2 ≤ 2) → _cells s' !! k = _cells three_row_sheet !! k) ∧
    (∀ k cell, _cells three_row_sheet !! k = Some cell →
       ∃ cell', _cells s' !! k = Some cell' ∧ _value cell' = _value cell ∧
                data_type cell' = data_type cell) ∧
    title s' = title three_row_sheet ∧
    column_dimensions s' = column_dimensions three_row_sheet.
Proof.
  split; [reflexivity|].
  apply (style_header_keeps_cell_content header_font header_fill header_align
           thin_border 0%nat (book_of three_row_sheet) three_row_sheet 2).
  reflexivity.
Defined.

Lemma style_header_leaves_other_sheets_witness :
  _sheets two_sheet_book !! 0%nat = Some header_sheet ∧
  length (_sheets (style_header header_font header_fill header_align thin_border
                     0%nat 2 two_sheet_book).2) = length (_sheets two_sheet_book) ∧
  sheetnames (style_header header_font header_fill header_align thin_border
                0%nat 2 two_sheet_book).2 = sheetnames two_sheet_book ∧
  (∀ other, other ≠ 0%nat →
     _sheets (style_header header_font header_fill header_align thin_border
                0%nat 2 two_sheet_book).2 !! other = _sheets two_sheet_book !! other) ∧
  _active_sheet_index (style_header header_font header_fill header_align thin_border
                         0%nat 2 two_sheet_book).2 = _active_sheet_index two_sheet_book ∧
  created (style_header header_font header_fill header_align thin_border
             0%nat 2 two_sheet_book).2 = created two_sheet_book ∧
  modified (style_header header_font header_fill header_align thin_border
              0%nat 2 two_sheet_book).2 = modified two_sheet_book ∧
  _sheets (style_header header_font header_fill header_align thin_border
             0%nat 2 two_sheet_book).2 !! 1%nat = Some data_sheet ∧
  sheetnames two_sheet_book = ["Sheet"; "Data"].
Proof.
  split; [reflexivity|].
  destruct (style_header_leaves_other_sheets header_font header_fill header_align
              thin_border 0%nat two_sheet_book header_sheet 2 eq_refl)
    as (Hlen & Hnames & Hother & Hactive & Hcreated & Hmodified).
  repeat (split; [assumption|]).
  split; [|reflexivity].
  exact (eq_trans (Hother 1%nat ltac:(discriminate)) eq_refl).
Defined.

Lemma style_header_rejects_bad_width_witness :
  _sheets (book_of header_sheet) !! 0%nat = Some header_sheet ∧
  ¬ (1 ≤ 0 ≤ 18278) ∧
  ∃ wb' s',
    style_header header_font header_fill header_align thin_border
      0%nat 0 (book_of header_sheet)
      = (Raise (ValueError "Invalid column index"), wb') ∧
    _sheets wb' !! 0%nat = Some s' ∧
    row_1_frozen s' ∧ auto_filter_ref s' = auto_filter_ref header_sheet ∧
    (0 ≤ 0 → _cells s' = _cells header_sheet ∧
             _current_row s' = _current_row header_sheet).
Proof.
  split; [reflexivity|]. split; [lia|].
  apply (style_header_rejects_bad_width header_font header_fill header_align
           thin_border 0%nat (book_of header_sheet) header_sheet 0);
    [reflexivity|lia].
Defined.

Lemma style_header_idempotent_witness :
  _sheets (book_of header_sheet) !! 0%nat = Some header_sheet ∧ 1 ≤ 2 ≤ 18278 ∧
  ∃ wb',
    style_header header_font header_fill header_align thin_border
      0%nat 2 (book_of header_sheet) = (Ok tt, wb') ∧
    style_header header_font header_fill header_align thin_border
      0%nat 2 wb' = (Ok tt, wb').
Proof.
  split; [reflexivity|]. split; [lia|].
  apply (style_header_idempotent header_font header_fill header_align thin_border
           0%nat (book_of header_sheet) header_sheet 2); [reflexivity|lia].
Defined.

Lemma style_header_creates_missing_cells_witness :
  _sheets (book_of blank_sheet) !! 0%nat = Some blank_sheet ∧
  1 ≤ 2 ≤ 18278 ∧ 1 ≤ 1 ≤ 2 ∧ _cells blank_sheet !! (1, 1) = None ∧
  ∃ wb' s' cell',
    style_header header_font header_fill header_align thin_border
      0%nat 2 (book_of blank_sheet) = (Ok tt, wb') ∧
    _sheets wb' !! 0%nat = Some s' ∧
    _cells s' !! (1, 1) = Some cell' ∧
    _value cell' = PyNone ∧ data_type cell' = "n" ∧
    _current_row s' = Z.max 1 (_current_row blank_sheet).
Proof.
  split; [reflexivity|]. split; [lia|]. split; [lia|]. split; [reflexivity|].
  apply (style_header_creates_missing_cells header_font header_fill header_align
           thin_border 0%nat (book_of blank_sheet) blank_sheet 2 1);
    [reflexivity|lia|lia|reflexivity].
Defined.

Lemma header_sheet_has_header_cells (c : Z) :
  1 ≤ c ≤ 2 → is_Some (_cells header_sheet !! (1, c)).
Proof.
  intros Hc. assert (c = 1 ∨ c = 2) as [-> | ->] by lia;
    vm_compute; eexists; reflexivity.
Defined.

Lemma style_header_keeps_append_row_witness :
  _sheets (book_of header_sheet) !! 0%nat = Some header_sheet ∧ 1 ≤ 2 ≤ 18278 ∧
  (∀ c, 1 ≤ c ≤ 2 → is_Some (_cells header_sheet !! (1, c))) ∧
  ∃ wb' s',
    style_header header_font header_fill header_align thin_border
      0%nat 2 (book_of header_sheet) = (Ok tt, wb') ∧
    _sheets wb' !! 0%nat = Some s' ∧
    _current_row s' = _current_row header_sheet ∧
    dom (_cells s') = dom (_cells header_sheet).
Proof.
  split; [reflexivity|]. split; [lia|]. split; [exact header_sheet_has_header_cells|].
  apply (style_header_keeps_append_row header_font header_fill header_align
           thin_border 0%nat (book_of header_sheet) header_sheet 2);
    [reflexivity|lia|exact header_sheet_has_header_cells].
Defined.

Lemma sample_cells_of : cells_of (strs ["name"; "email"]) sample_cells.
Proof. repeat constructor. Defined.

Lemma header_row_written_then_styled_witness :
  _sheets (book_of blank_sheet) !! 0%nat = Some blank_sheet ∧
  _current_row blank_sheet = 0 ∧
  cells_of (strs ["name"; "email"]) sample_cells ∧
  1 ≤ len_list (strs ["name"; "email"]) ≤ 18278 ∧
  ∃ wb' s',
    (_ ← on_sheet 0%nat (append (strs ["name"; "email"]));
     style_header header_font header_fill header_align thin_border
       0%nat (len_list (strs ["name"; "email"]))) (book_of blank_sheet)
      = (Ok tt, wb') ∧
    _sheets wb' !! 0%nat = Some s' ∧ _current_row s' = 1 ∧
    (∀ i c, sample_cells !! i = Some c →
       _cells s' !! (1, Z.of_nat i + 1) =
       Some (style_cell header_font header_fill header_align thin_border c)) ∧
    (∀ k, ¬ (k.1 = 1 ∧ 1 ≤ k.2 ≤ len_list (strs ["name"; "email"])) →
       _cells s' !! k = _cells blank_sheet !! k).
Proof.
  split; [reflexivity|]. split; [reflexivity|]. split; [exact sample_cells_of|].
  split; [vm_compute; split; discriminate|].
  apply (header_row_written_then_styled header_font header_fill header_align
           thin_border 0%nat (book_of blank_sheet) blank_sheet
           (strs ["name"; "email"]) sample_cells);
    [reflexivity|reflexivity|exact sample_cells_of|vm_compute; split; discriminate].
Defined.

Lemma sample_rows_cells_of :
  Forall2 cells_of [strs ["name"; "email"]; strs ["name"; "email"]]
                   [sample_cells; sample_cells].
Proof. repeat constructor. Defined.

Lemma rows_appended_in_order_witness :
  _sheets (book_of header_sheet) !! 0%nat = Some header_sheet ∧
  Forall2 cells_of [strs ["name"; "email"]; strs ["name"; "email"]]
                   [sample_cells; sample_cells] ∧
  ∃ wb' s',
    for_each [strs ["name"; "email"]; strs ["name"; "email"]]
      (λ row, on_sheet 0%nat (append row)) (book_of header_sheet) = (Ok tt, wb') ∧
    _sheets wb' !! 0%nat = Some s' ∧
    _current_row s' =
      _current_row header_sheet
      + len_list [strs ["name"; "email"]; strs ["name"; "email"]] ∧
    (∀ i j cells c, [sample_cells; sample_cells] !! i = Some cells →
       cells !! j = Some c →
       _cells s' !! (_current_row header_sheet + 1 + Z.of_nat i, Z.of_nat j + 1)
       = Some c) ∧
    (∀ k, k.1 ≤ _current_row header_sheet →
       _cells s' !! k = _cells header_sheet !! k).
Proof.
  split; [reflexivity|]. split; [exact sample_rows_cells_of|].
  apply (rows_appended_in_order 0%nat (book_of header_sheet) header_sheet
           [strs ["name"; "email"]; strs ["name"; "email"]]
           [sample_cells; sample_cells]);
    [reflexivity|exact sample_rows_cells_of].
Defined.

Lemma widths_set_by_position_witness :
  _sheets (book_of header_sheet) !! 0%nat = Some header_sheet ∧
  len_list [30; 50] ≤ 18278 ∧
  ∃ wb' s',
    for_each (enumerate [30; 50] 1) (λ '(i, w),
        letter ← lift (get_column_letter i);
        on_sheet 0%nat (set_column_width letter w)) (book_of header_sheet)
      = (Ok tt, wb') ∧
    _sheets wb' !! 0%nat = Some s' ∧
    (∀ i w, [30; 50] !! i = Some w → width_of_column s' (Z.of_nat i + 1) = Some w) ∧
    (∀ key, (∀ i, 1 ≤ i ≤ len_list [30; 50] → get_column_letter i ≠ Ok key) →
       column_dimensions s' !! key = column_dimensions header_sheet !! key) ∧
    _cells s' = _cells header_sheet ∧ _current_row s' = _current_row header_sheet ∧
    pane s' = pane header_sheet ∧ auto_filter_ref s' = auto_filter_ref header_sheet.
Proof.
  split; [reflexivity|]. split; [vm_compute; discriminate|].
  apply (widths_set_by_position 0%nat (book_of header_sheet) header_sheet [30; 50]);
    [reflexivity|vm_compute; discriminate].
Defined.

Lemma too_many_widths : 18278 < len_list (replicate (Z.to_nat 18279) 10).
Proof. unfold len_list. rewrite length_replicate. lia. Defined.

Lemma widths_beyond_last_column_rejected_witness :
  _sheets (book_of header_sheet) !! 0%nat = Some header_sheet ∧
  18278 < len_list (replicate (Z.to_nat 18279) 10) ∧
  (for_each (enumerate (replicate (Z.to_nat 18279) 10) 1) (λ '(i, w),
      letter ← lift (get_column_letter i);
      on_sheet 0%nat (set_column_width letter w)) (book_of header_sheet)).1 =
  Raise (ValueError "Invalid column index").
Proof.
  split; [reflexivity|]. split; [exact too_many_widths|].
  apply (widths_beyond_last_column_rejected 0%nat (book_of header_sheet) header_sheet
           (replicate (Z.to_nat 18279) 10)); [reflexivity|exact too_many_widths].
Defined.

Lemma prompt_text_cells_wrapped_witness :
  _sheets (book_of three_row_sheet) !! 0%nat = Some three_row_sheet ∧
  max_row three_row_sheet ≤ 1048576 ∧
  ∃ wb' s',
    on_sheet 0%nat (iter_rows (Some 2) None (Some 2) (Some 2) (λ row,
      for_each row (λ cell,
        a ← lift (new_Alignment None (Some "top") (Some true));
        set_cell (with_alignment a) cell))) (book_of three_row_sheet)
      = (Ok tt, wb') ∧
    _sheets wb' !! 0%nat = Some s' ∧
    (∀ r, 2 ≤ r ≤ max_row three_row_sheet →
       ∃ cell', _cells s' !! (r, 2) = Some cell' ∧ alignment cell' = WRAP_TOP ∧
         _value cell' = _value (default EMPTY_CELL (_cells three_row_sheet !! (r, 2))) ∧
         font cell' = font (default EMPTY_CELL (_cells three_row_sheet !! (r, 2)))) ∧
    (∀ k, ¬ (k.2 = 2 ∧ 2 ≤ k.1 ≤ max_row three_row_sheet) →
       _cells s' !! k = _cells three_row_sheet !! k) ∧
    title s' = title three_row_sheet ∧
    column_dimensions s' = column_dimensions three_row_sheet ∧
    pane s' = pane three_row_sheet ∧
    auto_filter_ref s' = auto_filter_ref three_row_sheet.
Proof.
  split; [reflexivity|]. split; [vm_compute; discriminate|].
  apply (prompt_text_cells_wrapped 0%nat (book_of three_row_sheet) three_row_sheet);
    [reflexivity|vm_compute; discriminate].
Defined.

Section Titles.

Lemma checked_title_fresh (wb : Workbook) (current name : string) :
  fresh_title wb name → checked_title (sheetnames wb) current name = Ok name.
Proof.
  intros (Hne & Hvalid & _ & _ & Hfresh). unfold checked_title.
  destruct (String.eqb_spec name EmptyString) as [|_]; [done|].
  rewrite Hvalid. destruct (String.eqb current name); cbn [negb]; [done|].
  unfold avoid_duplicate_name. by rewrite Hfresh.
Qed.

Lemma create_sheet_run (wb : Workbook) (name : string) :
  fresh_title wb name →
  create_sheet name wb =
  (Ok (length (_sheets wb)), with_sheets (_sheets wb ++ [new_sheet name]) wb).
Proof.
  intros Hfresh. pose proof Hfresh as (Hne & _).
  unfold create_sheet, mbind, M_bind, get, lift, new_Worksheet.
  destruct (String.eqb_spec name EmptyString) as [|_]; [done|].
  by rewrite checked_title_fresh.
Qed.

(** The titles the script gives its sheets, and the title the library
    gives the first sheet, are ASCII strings. *)
Lemma script_titles_ascii : forallb is_ascii ("Sheet" :: Spec.sheet_names) = true.
Proof. reflexivity. Qed.

End Titles.

Lemma discussions_is_fresh : fresh_title (new_Workbook 0) "Discussions".
Proof. repeat split. discriminate. Defined.

Section TabPattern.

Variables (header_font : Font) (header_fill : PatternFill)
          (header_align : Alignment) (thin_border : Border).

Local Abbreviation style_header := (style_header header_font header_fill header_align thin_border).
Local Abbreviation style_cell := (style_cell header_font header_fill header_align thin_border).
Local Abbreviation style_columns := (style_columns header_font header_fill header_align thin_border).
Local Abbreviation styled_header := (styled_header header_font header_fill header_align thin_border).

(** X17.  The statements of a header-only tab (create the sheet, append
    the headers, style as many columns as there are headers, set the
    widths), for any fresh title, any 1 to 18278 headers the cell
    constructor accepts and any list of at most 18278 widths: they end
    without raising and add one sheet after the existing ones; it has the
    title asked for; its cells are exactly the styled header cells of row
    1, in order; its row counter is 1; row 1 is frozen; the auto-filter
    spans the header row; its i-th column has the i-th width and no other
    column has one. *)
Theorem header_only_tab_built (wb : Workbook) (name : string)
    (headers : list value) (cells : list Cell) (widths : list Z) :
  fresh_title wb name → cells_of headers cells →
  1 ≤ len_list headers ≤ 18278 → len_list widths ≤ 18278 →
  ∃ wb' s',
    (ws ← create_sheet name;
     _ ← on_sheet ws (append headers);
     _ ← style_header ws (len_list headers);
     for_each (enumerate widths 1) (λ '(i, w),
       letter ← lift (get_column_letter i);
       on_sheet ws (set_column_width letter w))) wb = (Ok tt, wb') ∧
    _sheets wb' = _sheets wb ++ [s'] ∧ title s' = name ∧
    (∀ i c, cells !! i = Some c →
       _cells s' !! (1, Z.of_nat i + 1) = Some (style_cell c)) ∧
    (∀ k, ¬ (k.1 = 1 ∧ 1 ≤ k.2 ≤ len_list headers) → _cells s' !! k = None) ∧
    _current_row s' = 1 ∧ row_1_frozen s' ∧
    auto_filter_ref s' = header_range (len_list headers) ∧
    (∀ i w, widths !! i = Some w → width_of_column s' (Z.of_nat i + 1) = Some w) ∧
    (∀ key, (∀ i, 1 ≤ i ≤ len_list widths → get_column_letter i ≠ Ok key) →
       column_dimensions s' !! key = None).
Proof.
  intros Hfresh Hcells Hn Hw.
  assert (length cells = length headers) as Hlen
    by (symmetry; by eapply Forall2_length).
  pose proof (create_sheet_run wb name Hfresh) as Hcreate.
  set (wb1 := with_sheets (_sheets wb ++ [new_sheet name]) wb) in *.
  assert (_sheets wb1 = _sheets wb ++ [new_sheet name]) as Hsheets1 by done.
  assert (_sheets wb1 !! length (_sheets wb) = Some (new_sheet name)) as Hnew.
  { rewrite Hsheets1, lookup_app_r by lia. by rewrite Nat.sub_diag. }
  set (ws := length (_sheets wb)) in *.
  assert (ws < length (_sheets wb1))%nat as Hws by (by eapply lookup_lt_Some).
  destruct (proj2 (get_column_letter_defined _) Hn) as [letter Hl].
  set (n := len_list headers) in *.
  set (s1 := appended cells (new_sheet name)).
  set (s2 := styled_header n letter s1).
  set (s3 := set_widths 1 widths s2).
  exists (put_sheet ws s3 wb1), s3.
  split.
  { unfold mbind at 1, M_bind at 1. rewrite Hcreate.
    unfold mbind at 1, M_bind at 1.
    rewrite <- (put_sheet_id ws (new_sheet name) wb1 Hnew) at 1.
    rewrite on_sheet_put, (append_run headers cells) by done. cbn [fst snd].
    fold s1. unfold mbind at 1, M_bind at 1.
    rewrite (style_header_run header_font header_fill header_align thin_border
               ws _ s1 n letter (put_sheet_lookup ws _ wb1 Hws) Hl).
    rewrite put_sheet_put_sheet. fold s2.
    rewrite set_widths_run by (done || unfold len_list in Hw; lia). done. }
  split.
  { unfold put_sheet. cbn [_sheets with_sheets]. rewrite Hsheets1.
    rewrite insert_app_r_alt by (unfold ws; lia).
    unfold ws. by rewrite Nat.sub_diag. }
  destruct (set_widths_spec 1 widths s2) as (Hput & Hframe & Hc3 & Hr3 & Ht3 & Hp3 & Hf3);
    [lia|unfold len_list in Hw; lia|].
  fold s3 in Hput, Hframe, Hc3, Hr3, Ht3, Hp3, Hf3.
  assert (Hplaced : ∀ k, _cells s1 !! k =
            if decide (k.1 = 1 ∧ 1 ≤ k.2 ≤ n) then cells !! Z.to_nat (k.2 - 1) else None).
  { intros k. unfold s1. rewrite appended_lookup. cbn [_current_row new_sheet _cells].
    unfold n, len_list. rewrite Hlen, lookup_empty.
    repeat case_decide; try done; exfalso; lia. }
  assert (Hcells2 : ∀ k, _cells s3 !! k =
            if decide (k.1 = 1 ∧ 1 ≤ k.2 ≤ n)
            then style_cell <$> cells !! Z.to_nat (k.2 - 1) else None).
  { intros k. rewrite Hc3.
    change (_cells s2) with (_cells (style_columns (range 1 (n + 1)) s1)).
    rewrite style_columns_lookup, Hplaced.
    assert (k.1 = 1 ∧ k.2 ∈ range 1 (n + 1) ↔ k.1 = 1 ∧ 1 ≤ k.2 ≤ n) as Hiff
      by (by rewrite in_range_1).
    destruct (decide (k.1 = 1 ∧ k.2 ∈ range 1 (n + 1))) as [Hk|Hk];
      destruct (decide (k.1 = 1 ∧ 1 ≤ k.2 ≤ n)) as [Hk'|Hk']; try tauto; try done.
    destruct (cells !! Z.to_nat (k.2 - 1)) eqn:E; [done|].
    apply lookup_ge_None_1 in E. unfold n, len_list in Hk'. lia. }
  destruct (style_columns_fields header_font header_fill header_align thin_border
              (range 1 (n + 1)) s1) as (Ht2 & _ & _ & Hd2).
  destruct (place_cells_fields 1 1 cells (new_sheet name)) as (Ht1 & _ & _ & _ & Hd1).
  split; [rewrite Ht3; exact (eq_trans Ht2 Ht1)|]. split.
  { intros i c Hi. apply lookup_lt_Some in Hi as Hlt. rewrite Hcells2.
    cbn [fst snd]. rewrite decide_True by (unfold n, len_list; lia).
    replace (Z.to_nat (Z.of_nat i + 1 - 1)) with i by lia. by rewrite Hi. }
  split; [intros k Hk; by rewrite Hcells2, decide_False|].
  split.
  { rewrite Hr3.
    change (_current_row s2) with (_current_row (style_columns (range 1 (n + 1)) s1)).
    rewrite style_columns_current_row, decide_True; [done|].
    apply Forall_forall. intros c Hc%in_range_1. rewrite Hplaced. cbn [fst snd].
    rewrite decide_True by done. apply lookup_lt_is_Some. unfold n, len_list in Hc. lia. }
  split; [unfold row_1_frozen; rewrite Hp3; reflexivity|]. split.
  { rewrite Hf3. cbn. unfold header_range. by rewrite Hl. }
  split.
  { intros i w Hi. rewrite Z.add_comm. by apply Hput. }
  intros key Hkey. rewrite Hframe by (intros i Hi; apply Hkey; unfold len_list; lia).
  change (column_dimensions s2)
    with (column_dimensions (style_columns (range 1 (n + 1)) s1)).
  by rewrite (eq_trans Hd2 Hd1).
Qed.

End TabPattern.

Lemma header_only_tab_built_witness :
  fresh_title (new_Workbook 0) "Discussions" ∧
  cells_of (strs ["name"; "email"]) sample_cells ∧
  1 ≤ len_list (strs ["name"; "email"]) ≤ 18278 ∧ len_list [30; 50] ≤ 18278 ∧
  ∃ wb' s',
    (ws ← create_sheet "Discussions";
     _ ← on_sheet ws (append (strs ["name"; "email"]));
     _ ← style_header header_font header_fill header_align thin_border
           ws (len_list (strs ["name"; "email"]));
     for_each (enumerate [30; 50] 1) (λ '(i, w),
       letter ← lift (get_column_letter i);
       on_sheet ws (set_column_width letter w))) (new_Workbook 0) = (Ok tt, wb') ∧
    _sheets wb' = _sheets (new_Workbook 0) ++ [s'] ∧ title s' = "Discussions" ∧
    (∀ i c, sample_cells !! i = Some c →
       _cells s' !! (1, Z.of_nat i + 1)
       = Some (style_cell header_font header_fill header_align thin_border c)) ∧
    (∀ k, ¬ (k.1 = 1 ∧ 1 ≤ k.2 ≤ len_list (strs ["name"; "email"])) →
       _cells s' !! k = None) ∧
    _current_row s' = 1 ∧ row_1_frozen s' ∧
    auto_filter_ref s' = header_range (len_list (strs ["name"; "email"])) ∧
    (∀ i w, [30; 50] !! i = Some w → width_of_column s' (Z.of_nat i + 1) = Some w) ∧
    (∀ key, (∀ i, 1 ≤ i ≤ len_list [30; 50] → get_column_letter i ≠ Ok key) →
       column_dimensions s' !! key = None).
Proof.
  split; [exact discussions_is_fresh|]. split; [exact sample_cells_of|].
  split; [vm_compute; split; discriminate|]. split; [vm_compute; discriminate|].
  apply (header_only_tab_built header_font header_fill header_align thin_border
           (new_Workbook 0) "Discussions" (strs ["name"; "email"]) sample_cells
           [30; 50]);
    [exact discussions_is_fresh | exact sample_cells_of
     | vm_compute; split; discriminate | vm_compute; discriminate].
Defined.
